(** * divvy-bike-map: the orchestration and data-collection engine

    A shallow embedding of the Go sources under [api/internal]:
    - [types.go]            the records and the repository interfaces,
    - [station_service.go]  the data-collection use case,
    - [database.go]         the bulk writes of the persistence gateway,
    - the source of [MLService] and [InferenceService]: the prediction
      gateway and the inference orchestrator,
    - the source of [Config]: the timing configuration,
    - [http_handlers.go]    the health endpoint,
    - [server.go]           the two background loops of the scheduler.

    Conventions.  A Go [int], [int64] or [time.Duration] is a [Z]; where the
    source multiplies durations the 64-bit wrap-around is written out.  A Go
    [error] value is [option error] ([None] is [nil]).  A [float64] is only
    ever copied, so it is carried as its IEEE-754 bit pattern.  Interfaces are
    records of functions over an explicit world, and every call through an
    interface is appended to a call trace. *)

From Stdlib Require Import ZArith List String Bool Lia.
Import ListNotations.
Local Open Scope string_scope.
Local Open Scope list_scope.
Local Open Scope Z_scope.

(** ** Go primitives *)

Module Go.

(** Arguments of a [fmt.Errorf] verb other than [%w]. *)
Inductive fmt_arg : Type :=
| arg_int (n : Z)
| arg_str (s : string).

(** [errors.New msg], [fmt.Errorf format args...] without a [%w] verb, and
    [fmt.Errorf] whose format ends in [%w], with the error it wraps. *)
Inductive error : Type :=
| errors_New (msg : string)
| fmt_Errorf (format : string) (args : list fmt_arg)
| fmt_Errorf_w (format : string) (args : list fmt_arg) (wrapped : error).

(** [errors.Unwrap]. *)
Definition Unwrap (e : error) : option error :=
  match e with
  | errors_New _ => None
  | fmt_Errorf _ _ => None
  | fmt_Errorf_w _ _ w => Some w
  end.

(** [len] of a slice, as a Go [int]. *)
Definition len {A : Type} (s : list A) : Z := Z.of_nat (List.length s).

(** [make([]T, n)]: [n] zero values. *)
Definition make {A : Type} (zero : A) (n : nat) : list A := repeat zero n.

(** [s[i] = v].  Out of range Go panics; the range loops below only index
    below [len s] (lemma [range_assign_map] shows every index is hit), so the
    out-of-range branch leaves the slice as it is. *)
Fixpoint assign {A : Type} (s : list A) (i : nat) (v : A) : list A :=
  match s, i with
  | [], _ => []
  | _ :: tl, O => v :: tl
  | hd :: tl, S j => hd :: assign tl j v
  end.

(** [for i, x := range src { dst[i] = f(x) }], started at index [i]. *)
Fixpoint range_assign {A B : Type} (f : A -> B) (src : list A) (i : nat)
  (dst : list B) : list B :=
  match src with
  | [] => dst
  | x :: rest => range_assign f rest (S i) (assign dst i (f x))
  end.

(** A signed 64-bit value after wrap-around. *)
Definition wrap64 (z : Z) : Z := (z + 2 ^ 63) mod 2 ^ 64 - 2 ^ 63.

(** [float64], carried as its bit pattern. *)
Definition float64 : Type := Z.

(** [time.Time] as nanoseconds since Go's zero time (January 1, year 1, UTC);
    the zero value of the struct is [0]. *)
Definition Time : Type := Z.
Definition zeroTime : Time := 0.

(** [time.Duration]: signed 64-bit nanoseconds. *)
Definition Duration : Type := Z.
Definition Second : Duration := 1000000000.
Definition Minute : Duration := 60 * Second.
Definition Hour : Duration := 60 * Minute.
Definition minDuration : Duration := - 2 ^ 63.
Definition maxDuration : Duration := 2 ^ 63 - 1.

End Go.
Import Go.

(** ** types.go *)

Module DivvyStation.
Record t : Type := mk {
  StationID : string;
  Name : string;
  Lat : float64;
  Lon : float64;
  Capacity : Z
}.
End DivvyStation.

Module DivvyStationStatus.
Record t : Type := mk {
  StationID : string;
  NumBikesAvailable : Z;
  NumDocksAvailable : Z;
  IsInstalled : Z;
  IsRenting : Z;
  IsReturning : Z;
  LastReported : Z
}.
End DivvyStationStatus.

Module Station.
Record t : Type := mk {
  StationID : string;
  Name : string;
  Lat : float64;
  Lon : float64;
  Capacity : Z;
  CreatedAt : Time;
  UpdatedAt : Time
}.

Definition zero : t := mk "" "" 0 0 0 zeroTime zeroTime.

Definition Validate (s : t) : option error :=
  if String.eqb (StationID s) "" then
    Some (errors_New "station ID is required")
  else if String.eqb (Name s) "" then
    Some (errors_New "station name is required")
  else if Capacity s <? 0 then
    Some (errors_New "capacity cannot be negative")
  else None.
End Station.

Module StationAvailability.
Record t : Type := mk {
  ID : Z;
  StationID : string;
  NumBikesAvailable : Z;
  NumDocksAvailable : Z;
  IsInstalled : Z;
  IsRenting : Z;
  IsReturning : Z;
  LastReported : Z;
  RecordedAt : Time
}.

Definition zero : t := mk 0 "" 0 0 0 0 0 0 zeroTime.

Definition Validate (sa : t) : option error :=
  if String.eqb (StationID sa) "" then
    Some (errors_New "station ID is required")
  else if (NumBikesAvailable sa <? 0) || (NumDocksAvailable sa <? 0) then
    Some (errors_New "availability counts cannot be negative")
  else None.
End StationAvailability.

Module Prediction.
Record t : Type := mk {
  ID : Z;
  StationID : string;
  PredictedAvailabilityClass : Z;
  AvailabilityPrediction : string;
  PredictionTime : Time;
  HorizonHours : Z;
  CreatedAt : Time
}.

Definition zero : t := mk 0 "" 0 "" zeroTime 0 zeroTime.
End Prediction.

(** The interfaces of [types.go], over the world [W] their implementations
    act on.  A method takes the world and returns its results with the world
    after the call. *)
Section Interfaces.
Variable W : Type.

Record DatabaseInterface : Type := {
  UpsertStations : list Station.t -> W -> option error * W;
  InsertAvailabilities : list StationAvailability.t -> W -> option error * W;
  InsertPredictions : list Prediction.t -> W -> option error * W;
  GetLatestPredictions : W -> (list Prediction.t * option error) * W
}.

Record DivvyClientInterface : Type := {
  FetchStationData :
    W -> (list DivvyStation.t * list DivvyStationStatus.t * option error) * W
}.

End Interfaces.
Arguments UpsertStations {W}.
Arguments InsertAvailabilities {W}.
Arguments InsertPredictions {W}.
Arguments GetLatestPredictions {W}.
Arguments FetchStationData {W}.

(** A call through one of the interfaces, with its argument. *)
Inductive Call : Type :=
| CallFetchStationData
| CallUpsertStations (stations : list Station.t)
| CallInsertAvailabilities (availabilities : list StationAvailability.t)
| CallInsertPredictions (predictions : list Prediction.t)
| CallGetLatestPredictions.

(** The slices handed to [UpsertStations], in call order. *)
Fixpoint upsert_calls (tr : list Call) : list (list Station.t) :=
  match tr with
  | [] => []
  | CallUpsertStations s :: rest => s :: upsert_calls rest
  | _ :: rest => upsert_calls rest
  end.

(** The slices handed to [InsertAvailabilities], in call order. *)
Fixpoint insert_calls (tr : list Call) : list (list StationAvailability.t) :=
  match tr with
  | [] => []
  | CallInsertAvailabilities a :: rest => a :: insert_calls rest
  | _ :: rest => insert_calls rest
  end.

(** The slices handed to [InsertPredictions], in call order. *)
Fixpoint prediction_calls (tr : list Call) : list (list Prediction.t) :=
  match tr with
  | [] => []
  | CallInsertPredictions p :: rest => p :: prediction_calls rest
  | _ :: rest => prediction_calls rest
  end.

(** ** station_service.go *)

Module StationSvc.
Section WithWorld.
Variable W : Type.

Record StationService : Type := NewStationService {
  database : DatabaseInterface W;
  divvyClient : DivvyClientInterface W
}.

Definition convertToStation (divvyStation : DivvyStation.t) : Station.t :=
  {| Station.StationID := DivvyStation.StationID divvyStation;
     Station.Name := DivvyStation.Name divvyStation;
     Station.Lat := DivvyStation.Lat divvyStation;
     Station.Lon := DivvyStation.Lon divvyStation;
     Station.Capacity := DivvyStation.Capacity divvyStation;
     Station.CreatedAt := zeroTime;
     Station.UpdatedAt := zeroTime |}.

Definition convertToAvailability (divvyStatus : DivvyStationStatus.t)
  : StationAvailability.t :=
  {| StationAvailability.ID := 0;
     StationAvailability.StationID := DivvyStationStatus.StationID divvyStatus;
     StationAvailability.NumBikesAvailable :=
       DivvyStationStatus.NumBikesAvailable divvyStatus;
     StationAvailability.NumDocksAvailable :=
       DivvyStationStatus.NumDocksAvailable divvyStatus;
     StationAvailability.IsInstalled := DivvyStationStatus.IsInstalled divvyStatus;
     StationAvailability.IsRenting := DivvyStationStatus.IsRenting divvyStatus;
     StationAvailability.IsReturning := DivvyStationStatus.IsReturning divvyStatus;
     StationAvailability.LastReported := DivvyStationStatus.LastReported divvyStatus;
     StationAvailability.RecordedAt := zeroTime |}.

(** The world together with the trace of interface calls made so far. *)
Definition St : Type := (W * list Call)%type.

Definition RefreshStationData (s : StationService) (st : St)
  : option error * St :=
  let '(w, tr) := st in
  let '((stations, statuses, err), w1) := FetchStationData (divvyClient s) w in
  let tr1 := tr ++ [CallFetchStationData] in
  match err with
  | Some e => (Some e, (w1, tr1))
  | None =>
    let dbStations :=
      range_assign convertToStation stations 0
        (make Station.zero (List.length stations)) in
    let availabilities :=
      range_assign convertToAvailability statuses 0
        (make StationAvailability.zero (List.length statuses)) in
    let '(err, w2) := UpsertStations (database s) dbStations w1 in
    let tr2 := tr1 ++ [CallUpsertStations dbStations] in
    match err with
    | Some e =>
      (Some (fmt_Errorf_w "failed to store stations: %w" [] e), (w2, tr2))
    | None =>
      let '(err, w3) := InsertAvailabilities (database s) availabilities w2 in
      let tr3 := tr2 ++ [CallInsertAvailabilities availabilities] in
      match err with
      | Some e =>
        (Some (fmt_Errorf_w "failed to store availabilities: %w" [] e),
         (w3, tr3))
      | None => (None, (w3, tr3))
      end
    end
  end.

End WithWorld.
Arguments database {W}.
Arguments divvyClient {W}.
Arguments RefreshStationData {W}.
End StationSvc.

(** ** database.go *)

Module DB.

(** A bound parameter of a prepared statement. *)
Inductive SqlArg : Type :=
| SqlString (s : string)
| SqlInt (n : Z)
| SqlFloat (f : float64)
| SqlTime (t : Time).

(** What reaches the [database/sql] connection pool. *)
Inductive SqlOp : Type :=
| OpBeginTx
| OpPrepareContext (query : string)
| OpExecContext (args : list SqlArg)
| OpCommit
| OpRollback
| OpStmtClose.

(** The statements, with the white space of the source's raw strings
    collapsed. *)
Definition queryUpsertStation : string :=
  "INSERT INTO stations (station_id, name, lat, lon, capacity) VALUES ($1, $2, $3, $4, $5) ON CONFLICT (station_id) DO UPDATE SET name = EXCLUDED.name, lat = EXCLUDED.lat, lon = EXCLUDED.lon, capacity = EXCLUDED.capacity, updated_at = CURRENT_TIMESTAMP".

Definition queryInsertAvailability : string :=
  "INSERT INTO station_availability (station_id, num_bikes_available, num_docks_available, is_installed, is_renting, is_returning, last_reported) VALUES ($1, $2, $3, $4, $5, $6, $7)".

Definition queryInsertPrediction : string :=
  "INSERT INTO predictions (station_id, predicted_availability_class, availability_prediction, prediction_time, horizon_hours) VALUES ($1, $2, $3, $4, $5)".

(** The [*sql.DB] behind a [Database]: the operations it has received, and
    the outcomes the store will give to the next fallible operations
    ([BeginTx], [PrepareContext], [ExecContext], [Commit]); once the script is
    used up every operation succeeds. *)
Record Database : Type := mkDatabase {
  ops : list SqlOp;
  script : list (option error)
}.

(** A fallible operation: logged, answered by the next scripted outcome. *)
Definition fallible (op : SqlOp) (d : Database) : option error * Database :=
  match script d with
  | [] => (None, mkDatabase (ops d ++ [op]) [])
  | r :: rest => (r, mkDatabase (ops d ++ [op]) rest)
  end.

(** An operation whose result the callers drop ([tx.Rollback], [stmt.Close]
    in a [defer]). *)
Definition dropped (op : SqlOp) (d : Database) : Database :=
  mkDatabase (ops d ++ [op]) (script d).

(** The [for ... range] loop of a bulk write: one [ExecContext] per row,
    stopping at the first failure, which is wrapped with the row's station. *)
Fixpoint exec_each {A : Type} (args_of : A -> list SqlArg)
  (station_of : A -> string) (format : string) (rows : list A) (d : Database)
  : option error * Database :=
  match rows with
  | [] => (None, d)
  | row :: rest =>
    let '(err, d1) := fallible (OpExecContext (args_of row)) d in
    match err with
    | Some e => (Some (fmt_Errorf_w format [arg_str (station_of row)] e), d1)
    | None => exec_each args_of station_of format rest d1
    end
  end.

Definition station_args (station : Station.t) : list SqlArg :=
  [SqlString (Station.StationID station); SqlString (Station.Name station);
   SqlFloat (Station.Lat station); SqlFloat (Station.Lon station);
   SqlInt (Station.Capacity station)].

Definition availability_args (availability : StationAvailability.t)
  : list SqlArg :=
  [SqlString (StationAvailability.StationID availability);
   SqlInt (StationAvailability.NumBikesAvailable availability);
   SqlInt (StationAvailability.NumDocksAvailable availability);
   SqlInt (StationAvailability.IsInstalled availability);
   SqlInt (StationAvailability.IsRenting availability);
   SqlInt (StationAvailability.IsReturning availability);
   SqlInt (StationAvailability.LastReported availability)].

Definition prediction_args (pred : Prediction.t) : list SqlArg :=
  [SqlString (Prediction.StationID pred);
   SqlInt (Prediction.PredictedAvailabilityClass pred);
   SqlString (Prediction.AvailabilityPrediction pred);
   SqlTime (Prediction.PredictionTime pred);
   SqlInt (Prediction.HorizonHours pred)].

(** The body shared by [UpsertStations] and [InsertAvailabilities] after the
    length test: begin, [defer tx.Rollback()], prepare, [defer stmt.Close()],
    the loop, [tx.Commit()].  Deferred calls run last in, first out. *)
Definition prepared_batch {A : Type} (query : string)
  (args_of : A -> list SqlArg) (station_of : A -> string) (format : string)
  (rows : list A) (d : Database) : option error * Database :=
  let '(err, d1) := fallible OpBeginTx d in
  match err with
  | Some e => (Some (fmt_Errorf_w "begin transaction: %w" [] e), d1)
  | None =>
    let '(err, d2) := fallible (OpPrepareContext query) d1 in
    match err with
    | Some e =>
      (Some (fmt_Errorf_w "prepare statement: %w" [] e), dropped OpRollback d2)
    | None =>
      let '(err, d3) := exec_each args_of station_of format rows d2 in
      match err with
      | Some e => (Some e, dropped OpRollback (dropped OpStmtClose d3))
      | None =>
        let '(err, d4) := fallible OpCommit d3 in
        (err, dropped OpRollback (dropped OpStmtClose d4))
      end
    end
  end.

Definition UpsertStations (stations : list Station.t) (d : Database)
  : option error * Database :=
  if len stations =? 0 then (None, d)
  else
    prepared_batch queryUpsertStation station_args Station.StationID
      "exec station %s: %w" stations d.

Definition InsertAvailabilities (availabilities : list StationAvailability.t)
  (d : Database) : option error * Database :=
  if len availabilities =? 0 then (None, d)
  else
    prepared_batch queryInsertAvailability availability_args
      StationAvailability.StationID "exec availability %s: %w"
      availabilities d.

(** [withTransaction]: begin, [defer] the rollback, run [fn], commit. *)
Definition withTransaction (fn : Database -> option error * Database)
  (d : Database) : option error * Database :=
  let '(err, d1) := fallible OpBeginTx d in
  match err with
  | Some e => (Some (fmt_Errorf_w "begin transaction: %w" [] e), d1)
  | None =>
    let '(err, d2) := fn d1 in
    match err with
    | Some e => (Some e, dropped OpRollback d2)
    | None =>
      let '(err, d3) := fallible OpCommit d2 in
      (err, dropped OpRollback d3)
    end
  end.

Definition InsertPredictions (predictions : list Prediction.t) (d : Database)
  : option error * Database :=
  if len predictions =? 0 then (None, d)
  else
    withTransaction
      (fun tx =>
         let '(err, d1) := fallible (OpPrepareContext queryInsertPrediction) tx in
         match err with
         | Some e => (Some (fmt_Errorf_w "prepare statement: %w" [] e), d1)
         | None =>
           let '(err, d2) :=
             exec_each prediction_args Prediction.StationID
               "insert prediction for station %s: %w" predictions d1 in
           (err, dropped OpStmtClose d2)
         end)
      d.

End DB.

(** ** MLService and InferenceService *)

(** An element of [PredictionResponse.Predictions] (an anonymous struct in
    the source). *)
Module RawPrediction.
Record t : Type := mk {
  StationID : string;
  PredictedAvailabilityClass : Z;
  PredictionTime : string;
  HorizonHours : Z;
  AvailabilityPrediction : string
}.
End RawPrediction.

Module PredictionResponse.
Record t : Type := mk {
  Predictions : list RawPrediction.t;
  Count : Z;
  Timestamp : string
}.

(** The [for i, pred := range p.Predictions] loop of [Validate], from index
    [i] on. *)
Fixpoint validate_each (i : Z) (preds : list RawPrediction.t) : option error :=
  match preds with
  | [] => None
  | pred :: rest =>
    if String.eqb (RawPrediction.StationID pred) "" then
      Some (fmt_Errorf "prediction %d missing station ID" [arg_int i])
    else if String.eqb (RawPrediction.PredictionTime pred) "" then
      Some (fmt_Errorf "prediction %d missing prediction time" [arg_int i])
    else validate_each (i + 1) rest
  end.

Definition Validate (p : t) : option error :=
  if len (Predictions p) =? 0 then
    Some (errors_New "no predictions in response")
  else if negb (Count p =? len (Predictions p)) then
    Some (errors_New "prediction count mismatch")
  else validate_each 0 (Predictions p).
End PredictionResponse.

Module ML.

(** What the HTTP round trip of [GetPredictions] can come to. *)
Inductive HTTPResult : Type :=
| RequestError (e : error)
| TransportError (e : error)
| HTTPResponse (StatusCode : Z) (Body : string).

Definition StatusOK : Z := 200.

(** The wall clock: [time.Now] returns the next reading. *)
Record Clock : Type := mkClock {
  readings : nat -> Time;
  reads : nat
}.

Definition Now (c : Clock) : Time * Clock :=
  (readings c (reads c), mkClock (readings c) (S (reads c))).

Definition RFC3339 : string := "2006-01-02T15:04:05Z07:00".

(** [MLServiceInterface.GetPredictions] returns a pointer and an error. *)
Record MLServiceInterface (W : Type) : Type := {
  GetPredictions_ :
    W -> (option PredictionResponse.t * option error) * W
}.
Arguments GetPredictions_ {W}.

(** How a call ends: it returns, or the goroutine panics. *)
Inductive Outcome (A : Type) : Type :=
| Returned (a : A)
| Panicked (msg : string).
Arguments Returned {A}.
Arguments Panicked {A}.

Section WithLibraries.
(** [encoding/json]: decoding a response body into a [PredictionResponse]. *)
Variable json_Decode : string -> PredictionResponse.t + error.
(** [time.Parse layout value]. *)
Variable time_Parse : string -> string -> Time + error.

Definition GetPredictions (r : HTTPResult)
  : option PredictionResponse.t * option error :=
  match r with
  | RequestError e => (None, Some (fmt_Errorf_w "create request: %w" [] e))
  | TransportError e => (None, Some (fmt_Errorf_w "ML service request: %w" [] e))
  | HTTPResponse code body =>
    if negb (code =? StatusOK) then
      (None,
       Some (fmt_Errorf "ML service error %d: %s" [arg_int code; arg_str body]))
    else
      match json_Decode body with
      | inr e => (None, Some (fmt_Errorf_w "decode response: %w" [] e))
      | inl predictionResp =>
        match PredictionResponse.Validate predictionResp with
        | Some e => (None, Some (fmt_Errorf_w "invalid response: %w" [] e))
        | None => (Some predictionResp, None)
        end
      end
  end.

(** The loop of [convertPredictions], from index [i] on. *)
Fixpoint convert_each (rawPredictions : list RawPrediction.t) (i : nat)
  (predictions : list Prediction.t) (c : Clock) : list Prediction.t * Clock :=
  match rawPredictions with
  | [] => (predictions, c)
  | pred :: rest =>
    let '(predTime, c1) :=
      match time_Parse RFC3339 (RawPrediction.PredictionTime pred) with
      | inl t => (t, c)
      | inr _ => Now c
      end in
    convert_each rest (S i)
      (assign predictions i
         {| Prediction.ID := 0;
            Prediction.StationID := RawPrediction.StationID pred;
            Prediction.PredictedAvailabilityClass :=
              RawPrediction.PredictedAvailabilityClass pred;
            Prediction.AvailabilityPrediction :=
              RawPrediction.AvailabilityPrediction pred;
            Prediction.PredictionTime := predTime;
            Prediction.HorizonHours := RawPrediction.HorizonHours pred;
            Prediction.CreatedAt := zeroTime |})
      c1
  end.

Definition convertPredictions (rawPredictions : list RawPrediction.t)
  (c : Clock) : (list Prediction.t * option error) * Clock :=
  let '(predictions, c1) :=
    convert_each rawPredictions 0
      (make Prediction.zero (List.length rawPredictions)) c in
  ((predictions, None), c1).

Section WithWorld.
Variable W : Type.

Record InferenceService : Type := NewInferenceService {
  mlService : MLServiceInterface W;
  database : DatabaseInterface W
}.

(** The state of a run: the world of the collaborators, the clock, and the
    trace of persistence calls. *)
Definition St : Type := (W * Clock * list Call)%type.

Definition RunInferenceWithResults (s : InferenceService) (st : St)
  : Outcome (option error) * St :=
  let '(w, c, tr) := st in
  let '((resp, err), w1) := GetPredictions_ (mlService s) w in
  match err with
  | Some e => (Returned (Some (fmt_Errorf_w "get predictions: %w" [] e)), (w1, c, tr))
  | None =>
    match resp with
    | None => (Panicked "nil pointer dereference", (w1, c, tr))
    | Some resp =>
      let '((predictions, err), c1) :=
        convertPredictions (PredictionResponse.Predictions resp) c in
      match err with
      | Some e =>
        (Returned (Some (fmt_Errorf_w "convert predictions: %w" [] e)), (w1, c1, tr))
      | None =>
        let '(err, w2) := InsertPredictions (database s) predictions w1 in
        let tr1 := tr ++ [CallInsertPredictions predictions] in
        match err with
        | Some e =>
          (Returned (Some (fmt_Errorf_w "store predictions: %w" [] e)), (w2, c1, tr1))
        | None => (Returned None, (w2, c1, tr1))
        end
      end
    end
  end.

End WithWorld.
End WithLibraries.
End ML.

(** ** http_handlers.go *)

Module Handlers.

(** A value of a [gin.H] map. *)
Inductive JSON : Type :=
| JString (s : string)
| JInt (n : Z).

(** What [c.JSON(code, obj)] writes. *)
Record Response : Type := mkResponse {
  Code : Z;
  Obj : list (string * JSON)
}.

Definition StatusOK : Z := 200.
Definition StatusServiceUnavailable : Z := 503.

(** The value of key [k] in a [gin.H]. *)
Fixpoint field (k : string) (obj : list (string * JSON)) : option JSON :=
  match obj with
  | [] => None
  | (k', v) :: rest => if String.eqb k k' then Some v else field k rest
  end.

Section WithWorld.
Variable W : Type.

Definition HealthCheck (database : DatabaseInterface W) (st : W * list Call)
  : Response * (W * list Call) :=
  let '(w, tr) := st in
  let '((predictions, err), w1) := GetLatestPredictions database w in
  let tr1 := tr ++ [CallGetLatestPredictions] in
  if (match err with Some _ => true | None => false end)
     || (len predictions =? 0) then
    (mkResponse StatusServiceUnavailable
       [("status", JString "unhealthy");
        ("service", JString "divvy-api");
        ("reason", JString "predictions not available")],
     (w1, tr1))
  else
    (mkResponse StatusOK
       [("status", JString "healthy");
        ("service", JString "divvy-api");
        ("predictions_count", JInt (len predictions))],
     (w1, tr1)).

End WithWorld.
Arguments HealthCheck {W}.
End Handlers.

(** ** Config *)

Module Config.
Record TimingConfig : Type := mkTiming {
  DataCollectionIntervalMin : Z;
  PredictionIntervalHours : Z;
  ServerShutdownTimeoutSec : Z;
  MLServiceMaxWaitMin : Z;
  MLServiceCheckIntervalSec : Z
}.

(** The defaults of [LoadConfig]. *)
Definition default : TimingConfig := mkTiming 15 2 10 5 10.
End Config.

(** ** server.go

    The background loops run on virtual time.  Straight-line statements take
    no time; time passes only where a goroutine blocks: in a [select], and in
    a call to a service, whose duration and result come from the environment.
    A goroutine is embedded as the function from its start instant to the
    list of events it produces, cut after [fuel] rounds of its endless
    [for] loop. *)

Module Sched.

(** *** package time *)

(** [t.Truncate(d)]: [t] rounded down to a multiple of [d] since the zero
    time; [t] itself when [d <= 0]. *)
Definition Truncate (t : Time) (d : Duration) : Time :=
  if d <=? 0 then t else t - t mod d.

Definition Add (t : Time) (d : Duration) : Time := t + d.

(** [t.Sub(u)], which saturates at the ends of [Duration]. *)
Definition Sub (t u : Time) : Duration :=
  let d := t - u in
  if d <? minDuration then minDuration
  else if maxDuration <? d then maxDuration
  else d.

(** [time.Duration(n) * unit], in 64 bits. *)
Definition scale (n : Z) (unit : Duration) : Duration := wrap64 (n * unit).

(** A [*time.Ticker]: its period, the instant of the next tick it will send,
    and the instant [Stop] was called, if it was.  A tick due before [Stop]
    is in the channel's buffer and can still be received; none is sent
    after. *)
Record Ticker : Type := mkTicker {
  period : Duration;
  next : Time;
  stop_at : option Time
}.

(** [time.NewTicker(d)] at instant [now]; it panics when [d <= 0]. *)
Definition NewTicker (now : Time) (d : Duration) : option Ticker :=
  if d <=? 0 then None else Some (mkTicker d (now + d) None).

(** [ticker.Stop()] at instant [now]. *)
Definition Stop (tk : Ticker) (now : Time) : Ticker :=
  mkTicker (period tk) (next tk)
    (match stop_at tk with Some s => Some s | None => Some now end).

(** The instant [<-ticker.C] becomes ready, if ever. *)
Definition tick_ready (tk : Ticker) : option Time :=
  match stop_at tk with
  | None => Some (next tk)
  | Some s => if next tk <? s then Some (next tk) else None
  end.

(** The ticker after a tick was received at instant [r >= next]: ticks that
    came due while the buffer was full were dropped. *)
Definition received (tk : Ticker) (r : Time) : Ticker :=
  mkTicker (period tk)
    (next tk + period tk * ((r - next tk) / period tk + 1))
    (stop_at tk).

(** *** package context *)

(** [context.Background()], never cancelled, or a context whose [cancel]
    is called at the given instant (never, for [None]). *)
Inductive Context : Type :=
| Background
| WithCancel (cancel_at : option Time).

(** The instant [ctx.Done()] is closed, if ever. *)
Definition Done (ctx : Context) : option Time :=
  match ctx with
  | Background => None
  | WithCancel c => c
  end.

(** [ctx.Err()] once [Done] is closed. *)
Definition Canceled : error := errors_New "context canceled".

(** *** the environment of the loops *)

Record Env : Type := mkEnv {
  (** the [k]-th call of [RefreshStationDataInternal]: how long it takes, and
      what it returns *)
  refresh : nat -> N * option error;
  (** the [k]-th call of [RunInferenceWithResults] *)
  inference : nat -> N * option error;
  (** [select] with both cases ready at the same instant picks one of them
      at random: [true] for the [ctx.Done()] case *)
  prefer_done : Time -> bool;
  (** [server.Shutdown]: how long it takes, and what it returns *)
  shutdown : N * option error
}.

Inductive Site : Type :=
| InitialRun
| ScheduledRun.

Inductive Event : Type :=
| Log (at_ : Time) (format : string)
| Refresh (at_ : Time) (ctx : Context) (result : option error)
| Inference (at_ : Time) (site : Site) (ctx : Context) (result : option error)
| Panic (at_ : Time) (msg : string)
| Return (at_ : Time).

(** The outcome of [select { case <-ctx.Done(): ... case <-timer: ... }]
    entered at instant [now], where [timer] is the instant the timer channel
    becomes ready. *)
Inductive Selected : Type :=
| DoneFirst (t : Time)
| TimerFirst (t : Time)
| Blocked.

Definition select (env : Env) (ctx : Context) (now : Time)
  (timer : option Time) : Selected :=
  match Done ctx, timer with
  | None, None => Blocked
  | Some c, None => DoneFirst (Z.max now c)
  | None, Some f => TimerFirst (Z.max now f)
  | Some c, Some f =>
    let tc := Z.max now c in
    let tf := Z.max now f in
    if tc <? tf then DoneFirst tc
    else if tf <? tc then TimerFirst tf
    else if prefer_done env tc then DoneFirst tc
    else TimerFirst tf
  end.

(** [time.After(d)] armed at instant [now]. *)
Definition After (now : Time) (d : Duration) : option Time := Some (now + d).

(** *** startDataCollection *)

(** The [for { select { ... } }] loop of the collection goroutine, entered at
    instant [now] with [k] fetches made so far. *)
Fixpoint collection_ticks (env : Env) (ctx : Context) (fuel : nat)
  (ticker : Ticker) (now : Time) (k : nat) : list Event :=
  match fuel with
  | O => []
  | S fuel' =>
    match select env ctx now (tick_ready ticker) with
    | Blocked => []
    | DoneFirst t =>
      [Log t "Data collection service shutting down"; Return t]
    | TimerFirst t =>
      let '(d, r) := refresh env k in
      let t' := t + Z.of_N d in
      Refresh t Background r
      :: Log t' (match r with
                 | Some _ => "Scheduled data collection failed: %v"
                 | None => "Scheduled data collection completed at %s"
                 end)
      :: collection_ticks env ctx fuel' (received ticker t) t' (S k)
    end
  end.

(** The goroutine of [startDataCollection], started at instant [now]. *)
Definition startDataCollection (cfg : Config.TimingConfig) (env : Env)
  (ctx : Context) (now : Time) (fuel : nat) : list Event :=
  let interval := scale (Config.DataCollectionIntervalMin cfg) Minute in
  let nextInterval := Add (Truncate now interval) interval in
  let timeUntilNext := Sub nextInterval now in
  Log now "Data collection service starting - next fetch at %s (in %v)"
  :: match select env ctx now (After now timeUntilNext) with
     | Blocked => []
     | DoneFirst t =>
       [Log t "Data collection service shutting down before first fetch";
        Return t]
     | TimerFirst t =>
       let '(d, r) := refresh env 0 in
       let t' := t + Z.of_N d in
       Refresh t Background r
       :: Log t' (match r with
                  | Some _ => "Initial scheduled data collection failed: %v"
                  | None => "Initial scheduled data collection completed at %s"
                  end)
       :: match NewTicker t' interval with
          | None => [Panic t' "non-positive interval for NewTicker"]
          | Some ticker =>
            Log t' "Data collection service running - fetching every %d minutes on the boundary"
            :: collection_ticks env ctx fuel ticker t' 1
          end
     end.

(** *** waitAndGenerateInitialPredictions *)

(** The [for] loop of [waitAndGenerateInitialPredictions], entered at instant
    [now] with [k] inference calls made so far.  It gives what the function
    returns ([None] while it is still looping when the fuel ends), the
    instant it returns at, the number of calls made and the events. *)
Fixpoint wait_rounds (env : Env) (ctx : Context) (fuel : nat)
  (maxWait checkInterval : Duration) (start now : Time) (k : nat)
  : option (option error) * Time * nat * list Event :=
  match fuel with
  | O => (None, now, k, [])
  | S fuel' =>
    if maxWait <? Sub now start then
      (Some (Some (fmt_Errorf "timeout waiting for ML service after %v"
                     [arg_int maxWait])), now, k, [])
    else
      let '(d, r) := inference env k in
      let t' := now + Z.of_N d in
      match r with
      | Some _ =>
        match select env ctx t' (After t' checkInterval) with
        | TimerFirst t =>
          let '(res, tend, kend, evs) :=
            wait_rounds env ctx fuel' maxWait checkInterval start t (S k) in
          (res, tend, kend,
           Inference now InitialRun ctx r
           :: Log t' "ML service not ready yet (elapsed: %v): %v" :: evs)
        | DoneFirst t =>
          (Some (Some Canceled), t, S k,
           [Inference now InitialRun ctx r;
            Log t' "ML service not ready yet (elapsed: %v): %v"])
        | Blocked =>
          (None, t', S k,
           [Inference now InitialRun ctx r;
            Log t' "ML service not ready yet (elapsed: %v): %v"])
        end
      | None =>
        (Some None, t', S k,
         [Inference now InitialRun ctx r;
          Log t' "Initial predictions generated successfully after %v"])
      end
  end.

Definition waitAndGenerateInitialPredictions (cfg : Config.TimingConfig)
  (env : Env) (ctx : Context) (fuel : nat) (now : Time)
  : option (option error) * Time * nat * list Event :=
  let maxWait := scale (Config.MLServiceMaxWaitMin cfg) Minute in
  let checkInterval := scale (Config.MLServiceCheckIntervalSec cfg) Second in
  wait_rounds env ctx fuel maxWait checkInterval now now 0.

(** *** StartPredictionService *)

(** The [for { select { ... } }] loop of the prediction goroutine. *)
Fixpoint prediction_ticks (env : Env) (ctx : Context) (fuel : nat)
  (ticker : Ticker) (now : Time) (k : nat) : list Event :=
  match fuel with
  | O => []
  | S fuel' =>
    match select env ctx now (tick_ready ticker) with
    | Blocked => []
    | DoneFirst t => [Log t "Prediction service shutting down"; Return t]
    | TimerFirst t =>
      let '(d, r) := inference env k in
      let t' := t + Z.of_N d in
      Inference t ScheduledRun Background r
      :: Log t' (match r with
                 | Some _ => "Scheduled prediction generation failed: %v"
                 | None => "Scheduled predictions generated at %s"
                 end)
      :: prediction_ticks env ctx fuel' (received ticker t) t' (S k)
    end
  end.

(** The goroutine launched by [StartPredictionService], which captures the
    ticker of the enclosing function. *)
Definition prediction_goroutine (cfg : Config.TimingConfig) (env : Env)
  (ctx : Context) (ticker : Ticker) (now : Time) (fuel : nat) : list Event :=
  Log now "Waiting for ML service and generating initial predictions..."
  :: match waitAndGenerateInitialPredictions cfg env ctx fuel now with
     | (None, _, _, evs) => evs
     | (Some err, t, k, evs) =>
       evs
       ++ Log t (match err with
                 | Some _ => "Initial prediction generation failed: %v"
                 | None => "Initial predictions generated successfully at %s"
                 end)
       :: Log t "Prediction service running - generating predictions every %d hours"
       :: prediction_ticks env ctx fuel ticker t k
     end.

(** [StartPredictionService], called at instant [now]: it creates the ticker,
    defers [ticker.Stop()], launches the goroutine and returns, which runs
    the deferred [Stop] at once, at [now]. *)
Definition StartPredictionService (cfg : Config.TimingConfig) (env : Env)
  (ctx : Context) (now : Time) (fuel : nat) : list Event :=
  match NewTicker now (scale (Config.PredictionIntervalHours cfg) Hour) with
  | None => [Panic now "non-positive interval for NewTicker"]
  | Some ticker =>
    prediction_goroutine cfg env ctx (Stop ticker now) now fuel
  end.

(** *** Server.Start and the end of the process *)

(** The instant of an event. *)
Definition instant (ev : Event) : Time :=
  match ev with
  | Log t _ => t
  | Refresh t _ _ => t
  | Inference t _ _ _ => t
  | Panic t _ => t
  | Return t => t
  end.

(** What a goroutine got done before the process ended at instant [stop]. *)
Definition before (stop : Time) (tr : list Event) : list Event :=
  filter (fun ev => instant ev <? stop) tr.

(** The instant a goroutine panics, if it does: a panic in any goroutine
    ends the process. *)
Fixpoint panic_at (tr : list Event) : option Time :=
  match tr with
  | [] => None
  | Panic t _ :: _ => Some t
  | _ :: rest => panic_at rest
  end.

(** [ctx.Err()] of a context whose deadline has passed. *)
Definition DeadlineExceeded : error := errors_New "context deadline exceeded".

(** [server.Shutdown(ctx)] entered under a context that expires after
    [timeout]: the server needs the time the environment says to drain its
    connections; when the context expires first, [Shutdown] returns the
    context's error at that instant.  The result is how long the call took
    and what it returned. *)
Definition Shutdown (env : Env) (timeout : Duration) : Z * option error :=
  let '(d, r) := shutdown env in
  if Z.of_N d <=? Z.max 0 timeout then (Z.of_N d, r)
  else (Z.max 0 timeout, Some DeadlineExceeded).

(** What the two loops and the goroutine that called [Start] do until the
    process ends, and the instant it ends (the goroutine of
    [ListenAndServe] is left out). *)
Record Run : Type := mkRun {
  collection : list Event;
  prediction : list Event;
  main : list Event;
  exit_at : Time
}.

(** [Start], called by [main] at instant [now], with SIGINT or SIGTERM
    delivered at instant [signal_at].  Both loops get
    [context.Background()].  [StartPredictionService] creates its ticker in
    the calling goroutine, so its panic ends the process before anything
    else.  Otherwise the caller blocks on [quit]; the signal leads to
    [server.Shutdown] under a context of [ServerShutdownTimeoutSec] seconds,
    and when [Start] returns, [main] returns (or calls [log.Fatal] on an
    error) and the process ends, cutting both loops where they are; a panic
    of the collection goroutine before that ends the process as well. *)
Definition Start (cfg : Config.TimingConfig) (env : Env) (now signal_at : Time)
  (fuel : nat) : Run :=
  let coll := startDataCollection cfg env Background now fuel in
  match NewTicker now (scale (Config.PredictionIntervalHours cfg) Hour) with
  | None =>
    {| collection := before now coll;
       prediction := [];
       main := [Panic now "non-positive interval for NewTicker"];
       exit_at := now |}
  | Some _ =>
    let pred := StartPredictionService cfg env Background now fuel in
    let t := Z.max now signal_at in
    let '(elapsed, err) :=
      Shutdown env (scale (Config.ServerShutdownTimeoutSec cfg) Second) in
    let stop := t + elapsed in
    let main_events :=
      Log t "Shutting down server..."
      :: match err with
         | Some _ => [Log stop "Server failed:"]
         | None => [Log stop "Server exited"; Return stop]
         end in
    match panic_at coll with
    | Some p =>
      if p <? stop then
        {| collection := coll;
           prediction := before p pred;
           main := before p main_events;
           exit_at := p |}
      else
        {| collection := before stop coll;
           prediction := before stop pred;
           main := main_events;
           exit_at := stop |}
    | None =>
      {| collection := before stop coll;
         prediction := before stop pred;
         main := main_events;
         exit_at := stop |}
    end
  end.

(** *** reading a trace *)

(** The instants at which [RefreshStationData] was invoked. *)
Fixpoint refresh_times (tr : list Event) : list Time :=
  match tr with
  | [] => []
  | Refresh t _ _ :: rest => t :: refresh_times rest
  | _ :: rest => refresh_times rest
  end.

(** The instants of the inference runs made from the ticker loop. *)
Fixpoint scheduled_runs (tr : list Event) : list Time :=
  match tr with
  | [] => []
  | Inference t ScheduledRun _ _ :: rest => t :: scheduled_runs rest
  | _ :: rest => scheduled_runs rest
  end.

(** The instants at which the goroutine returned. *)
Fixpoint returns (tr : list Event) : list Time :=
  match tr with
  | [] => []
  | Return t :: rest => t :: returns rest
  | _ :: rest => returns rest
  end.

End Sched.

(** ** Test doubles

    [MockDatabase] and [MockDivvyClient] return what the test configured;
    their world is trivial. *)

Module Mock.

Definition MockDatabase (upsertError insertError predictionsError : option error)
  (latest : list Prediction.t * option error) : DatabaseInterface unit :=
  {| UpsertStations := fun _ w => (upsertError, w);
     InsertAvailabilities := fun _ w => (insertError, w);
     InsertPredictions := fun _ w => (predictionsError, w);
     GetLatestPredictions := fun w => (latest, w) |}.

Definition MockDivvyClient (stations : list DivvyStation.t)
  (statuses : list DivvyStationStatus.t) (fetchError : option error)
  : DivvyClientInterface unit :=
  {| FetchStationData := fun w => ((stations, statuses, fetchError), w) |}.

(** The feed of the test [TestStationService_RefreshStationData]. *)
Definition station123 : DivvyStation.t :=
  DivvyStation.mk "123" "Test Station"
    4631090635920592654 13859238852770185557 15.

Definition status123 : DivvyStationStatus.t :=
  DivvyStationStatus.mk "123" 5 10 1 1 1 1640995200.

Definition AnError : error :=
  errors_New "assert.AnError general error for testing".

End Mock.

(** ** More of types.go *)

Module StationWithAvailability.
Record t : Type := mk {
  Station_ : Station.t;
  NumBikesAvailable : Z;
  NumDocksAvailable : Z;
  IsInstalled : Z;
  IsRenting : Z;
  IsReturning : Z;
  LastReported : Z
}.
End StationWithAvailability.

(** ** Config: loading and validation *)

Module DatabaseConfig.
Record t : Type := mk { URL : string }.
End DatabaseConfig.

Module ServerConfig.
Record t : Type := mk { Port : string; Environment : string }.
End ServerConfig.

Module DivvyConfig.
Record t : Type := mk { StationInfoURL : string; StationStatusURL : string }.
End DivvyConfig.

Module MLConfig.
Record t : Type := mk { ServiceURL : string; RequestTimeoutMin : Z; Port : Z }.
End MLConfig.

Module ConfigLoad.

Record Config : Type := mkConfig {
  Database : DatabaseConfig.t;
  Server : ServerConfig.t;
  Divvy : DivvyConfig.t;
  ML : MLConfig.t;
  Timing : Config.TimingConfig
}.

Section WithProcess.
(** [os.Getenv]: the value of a variable, [""] when it is not set. *)
Variable Getenv : string -> string.
(** [strconv.Atoi]. *)
Variable Atoi : string -> Z + error.




End WithProcess.

Definition Validate (c : Config) : option error :=
  if String.eqb (DatabaseConfig.URL (Database c)) "" then
    Some (errors_New "DB_URL is required but not provided")
  else if Config.DataCollectionIntervalMin (Timing c) <=? 0 then
    Some (errors_New "data collection interval must be positive")
  else if String.eqb (ServerConfig.Port (Server c)) "" then
    Some (errors_New "server port is required")
  else None.

End ConfigLoad.

(** ** divvy_client.go *)

Module DivvyClient.

(** What one HTTP GET of [fetchJSON] can come to; [Status] is the status
    line's text, as in [resp.Status]. *)
Inductive HTTPResult : Type :=
| RequestError (e : error)
| TransportError (e : error)
| HTTPResponse (StatusCode : Z) (Status : string) (Body : string).

Definition StatusOK : Z := 200.

(** [DivvyStationInfoResponse] and [DivvyStationStatusResponse], by their
    only field [Data.Stations]. *)
Record DivvyStationInfoResponse : Type := mkInfo {
  InfoStations : list DivvyStation.t
}.

Record DivvyStationStatusResponse : Type := mkStatus {
  StatusStations : list DivvyStationStatus.t
}.

(** [fetchJSON] into [target]: the target after the call, and the error.
    [decode] is [json.NewDecoder(body).Decode] at the target's type; a failed
    decode leaves the target as the callers see it, unused. *)
Definition fetchJSON {T : Type} (decode : string -> T + error)
  (r : HTTPResult) (target : T) : T * option error :=
  match r with
  | RequestError e => (target, Some (fmt_Errorf_w "create request: %w" [] e))
  | TransportError e => (target, Some (fmt_Errorf_w "http request: %w" [] e))
  | HTTPResponse code status body =>
    if negb (code =? StatusOK) then
      (target, Some (fmt_Errorf "HTTP %d: %s" [arg_int code; arg_str status]))
    else
      match decode body with
      | inr e => (target, Some (fmt_Errorf_w "decode JSON: %w" [] e))
      | inl v => (v, None)
      end
  end.

(** [g.Wait()] of an [errgroup] with two functions: the first error that
    was returned; when both fail, [first_is_info] tells whose came first. *)
Definition Wait (info status : option error) (first_is_info : bool)
  : option error :=
  match info, status with
  | None, None => None
  | Some e, None => Some e
  | None, Some e => Some e
  | Some e1, Some e2 => if first_is_info then Some e1 else Some e2
  end.

Section WithDecoders.
Variable decode_info : string -> DivvyStationInfoResponse + error.
Variable decode_status : string -> DivvyStationStatusResponse + error.

(** [FetchStationData], given what the two requests come to. *)
Definition FetchStationData (info status : HTTPResult) (first_is_info : bool)
  : list DivvyStation.t * list DivvyStationStatus.t * option error :=
  let '(stationInfo, e1) := fetchJSON decode_info info (mkInfo []) in
  let '(stationStatus, e2) := fetchJSON decode_status status (mkStatus []) in
  match Wait e1 e2 first_is_info with
  | Some err =>
    ([], [], Some (fmt_Errorf_w "failed to fetch station data: %w" [] err))
  | None => (InfoStations stationInfo, StatusStations stationStatus, None)
  end.

End WithDecoders.
End DivvyClient.

(** ** More of http_handlers.go *)

Module Api.

(** [map[string]Prediction]: the latest write to a key is the one read. *)
Definition PredictionsMap : Type := list (string * Prediction.t).

Definition map_set (m : PredictionsMap) (k : string) (v : Prediction.t)
  : PredictionsMap := (k, v) :: m.

Fixpoint map_get (m : PredictionsMap) (k : string) : option Prediction.t :=
  match m with
  | [] => None
  | (k', v) :: rest => if String.eqb k k' then Some v else map_get rest k
  end.

(** A value of a [gin.H]. *)
Inductive Value : Type :=
| VString (s : string)
| VStations (l : list StationWithAvailability.t)
| VPredictions (l : list Prediction.t)
| VPredictionsMap (m : PredictionsMap).

(** What a handler writes: [c.JSON(code, obj)] or [c.HTML(code, name, obj)]. *)
Inductive Response : Type :=
| JSON (code : Z) (obj : list (string * Value))
| HTML (code : Z) (name : string) (obj : list (string * Value)).

Definition Code (r : Response) : Z :=
  match r with
  | JSON code _ => code
  | HTML code _ _ => code
  end.

Definition Obj (r : Response) : list (string * Value) :=
  match r with
  | JSON _ obj => obj
  | HTML _ _ obj => obj
  end.

Fixpoint field (k : string) (obj : list (string * Value)) : option Value :=
  match obj with
  | [] => None
  | (k', v) :: rest => if String.eqb k k' then Some v else field k rest
  end.

Definition StatusOK : Z := 200.
Definition StatusInternalServerError : Z := 500.
Definition StatusServiceUnavailable : Z := 503.

(** A call a handler makes on its collaborators. *)
Inductive ApiCall : Type :=
| QueryStations
| QueryPredictions
| ServiceRefresh
| ServiceInference.

Section WithWorld.
Variable W : Type.

(** The collaborators of [HTTPHandlers] the handlers below use:
    [database.GetStationsWithAvailability], the rest of [database],
    [stationService.RefreshStationData] and
    [inferenceService.RunInferenceWithResults]. *)
Record HTTPHandlers : Type := mkHandlers {
  GetStationsWithAvailability :
    W -> (list StationWithAvailability.t * option error) * W;
  database : DatabaseInterface W;
  stationService : W -> option error * W;
  inferenceService : W -> option error * W
}.

Definition St : Type := (W * list ApiCall)%type.

(** [handleError]: the message goes to the client, the error to the log. *)
Definition handleError (statusCode : Z) (message : string) (err : error)
  : Response :=
  JSON statusCode [("error", VString message)].

(** [c.DefaultQuery("mode", "current")] of a request whose query has the
    value [mode] for the key, or no such key. *)
Definition DefaultQuery (mode : option string) (defaultValue : string)
  : string :=
  match mode with
  | Some v => v
  | None => defaultValue
  end.

(** [for _, p := range predictions { predictionsMap[p.StationID] = p }]. *)
Definition fill_map (m : PredictionsMap) (predictions : list Prediction.t)
  : PredictionsMap :=
  fold_left (fun acc p => map_set acc (Prediction.StationID p) p) predictions m.

Definition GetStationsHTML (h : HTTPHandlers) (query_mode : option string)
  (st : St) : Response * St :=
  let '(w, tr) := st in
  let mode := DefaultQuery query_mode "current" in
  let '((stations, err), w1) := GetStationsWithAvailability h w in
  let tr1 := tr ++ [QueryStations] in
  match err with
  | Some e =>
    (handleError StatusInternalServerError "Failed to fetch station data" e,
     (w1, tr1))
  | None =>
    let '(predictionsMap, st2) :=
      if String.eqb mode "predicted" then
        let '((predictions, err), w2) := GetLatestPredictions (database h) w1 in
        let tr2 := tr1 ++ [QueryPredictions] in
        match err with
        | None =>
          if 0 <? len predictions then (fill_map [] predictions, (w2, tr2))
          else ([], (w2, tr2))
        | Some _ => ([], (w2, tr2))
        end
      else ([], (w1, tr1)) in
    (HTML StatusOK "stations.html"
       [("stations", VStations stations);
        ("predictionsMap", VPredictionsMap predictionsMap);
        ("mode", VString mode)],
     st2)
  end.

Definition GetStationsJSON (h : HTTPHandlers) (query_mode : option string)
  (st : St) : Response * St :=
  let '(w, tr) := st in
  let mode := DefaultQuery query_mode "current" in
  let '((stations, err), w1) := GetStationsWithAvailability h w in
  let tr1 := tr ++ [QueryStations] in
  match err with
  | Some e =>
    (handleError StatusInternalServerError "Failed to fetch station data" e,
     (w1, tr1))
  | None =>
    if String.eqb mode "predicted" then
      let '((predictions, err), w2) := GetLatestPredictions (database h) w1 in
      let tr2 := tr1 ++ [QueryPredictions] in
      if (match err with Some _ => true | None => false end)
         || (len predictions =? 0) then
        (JSON StatusServiceUnavailable
           [("error", VString "Predictions not ready")], (w2, tr2))
      else
        (JSON StatusOK
           [("predictions", VPredictions predictions);
            ("stations", VStations stations)],
         (w2, tr2))
    else (JSON StatusOK [("stations", VStations stations)], (w1, tr1))
  end.

Definition RefreshStationData (h : HTTPHandlers) (st : St) : Response * St :=
  let '(w, tr) := st in
  let '(err, w1) := stationService h w in
  let tr1 := tr ++ [ServiceRefresh] in
  match err with
  | Some e =>
    (handleError StatusInternalServerError "Failed to refresh station data" e,
     (w1, tr1))
  | None =>
    (JSON StatusOK [("message", VString "Station data refreshed successfully")],
     (w1, tr1))
  end.

Definition RefreshStationDataInternal (h : HTTPHandlers) (st : St)
  : option error * St :=
  let '(w, tr) := st in
  let '(err, w1) := stationService h w in
  (err, (w1, tr ++ [ServiceRefresh])).

Definition TriggerInference (h : HTTPHandlers) (st : St) : Response * St :=
  let '(w, tr) := st in
  let '(err, w1) := inferenceService h w in
  let tr1 := tr ++ [ServiceInference] in
  match err with
  | Some e =>
    (handleError StatusInternalServerError "Inference failed" e, (w1, tr1))
  | None => (JSON StatusOK [("message", VString "Inference completed")], (w1, tr1))
  end.

End WithWorld.
Arguments GetStationsWithAvailability {W}.
Arguments database {W}.
Arguments stationService {W}.
Arguments inferenceService {W}.
Arguments GetStationsHTML {W}.
Arguments GetStationsJSON {W}.
Arguments RefreshStationData {W}.
Arguments RefreshStationDataInternal {W}.
Arguments TriggerInference {W}.
End Api.

(** ** MLService as the gateway of the orchestrator *)

Module Gateway.
Import ML.

(** [MLService] behind [MLServiceInterface]: the world supplies what each
    HTTP round trip comes to. *)
Definition MLService {W : Type}
  (json_Decode : string -> PredictionResponse.t + error)
  (roundTrip : W -> HTTPResult * W) : MLServiceInterface W :=
  {| GetPredictions_ := fun w =>
       let '(r, w1) := roundTrip w in (GetPredictions json_Decode r, w1) |}.

End Gateway.

(** ** waitAndGenerateInitialPredictions, with calls that may not return

    [RunInferenceWithResults] has no deadline of its own (the loop is given
    [context.Background()], and the insert has no timeout), so a call may
    never return.  Here the [k]-th call either takes some time and returns,
    or never returns. *)

Module OpenWait.
Import Sched.

(** How the initial wait ends. *)
Inductive Waited : Type :=
| Returned (err : option error) (at_ : Time) (calls : nat)
| Hung (call : nat) (since : Time)
| Looping.

(** The [for] loop of [waitAndGenerateInitialPredictions], entered at instant
    [now] with [k] inference calls made so far; [Looping] when it is still
    going round after [fuel] rounds. *)
Fixpoint wait_rounds (attempt : nat -> option (N * option error)) (env : Env)
  (ctx : Context) (fuel : nat) (maxWait checkInterval : Duration)
  (start now : Time) (k : nat) : Waited :=
  match fuel with
  | O => Looping
  | S fuel' =>
    if maxWait <? Sub now start then
      Returned (Some (fmt_Errorf "timeout waiting for ML service after %v"
                        [arg_int maxWait])) now k
    else
      match attempt k with
      | None => Hung k now
      | Some (d, r) =>
        let t' := now + Z.of_N d in
        match r with
        | Some _ =>
          match select env ctx t' (After t' checkInterval) with
          | TimerFirst t =>
            wait_rounds attempt env ctx fuel' maxWait checkInterval start t
              (S k)
          | DoneFirst t => Returned (Some Canceled) t (S k)
          | Blocked => Looping
          end
        | None => Returned None t' (S k)
        end
      end
  end.

Definition waitAndGenerateInitialPredictions (cfg : Config.TimingConfig)
  (attempt : nat -> option (N * option error)) (env : Env) (ctx : Context)
  (fuel : nat) (now : Time) : Waited :=
  let maxWait := scale (Config.MLServiceMaxWaitMin cfg) Minute in
  let checkInterval := scale (Config.MLServiceCheckIntervalSec cfg) Second in
  wait_rounds attempt env ctx fuel maxWait checkInterval now now 0.

End OpenWait.

(** * The vocabulary of the properties *)

Module StationSvcSpec.
Import StationSvc.

(** The trace of interface calls a run leaves. *)
Definition trace_of {W R : Type} (r : R * (W * list Call)) : list Call :=
  snd (snd r).

(** What the feed must supply for the converted record to pass
    [Station.Validate]. *)
Definition feed_station_ok (d : DivvyStation.t) : Prop :=
  DivvyStation.StationID d <> "" /\ DivvyStation.Name d <> ""
  /\ 0 <= DivvyStation.Capacity d.

(** A feed station with no ID, no name and a negative capacity. *)
Definition blank_station : DivvyStation.t := DivvyStation.mk "" "" 0 0 (-1).

End StationSvcSpec.

Module DBSpec.
Import DB.

(** [d'] has received the operations of [d] and then [more]. *)
Definition received_after (d d' : Database) (more : list SqlOp) : Prop :=
  ops d' = ops d ++ more.

End DBSpec.

Module MLSpec.
Import ML.

(** An element the validation loop accepts. *)
Definition element_ok (x : RawPrediction.t) : Prop :=
  RawPrediction.StationID x <> "" /\ RawPrediction.PredictionTime x <> "".

(** What makes a decoded response invalid, in the words of the gateway's
    contract. *)
Definition violates_contract (p : PredictionResponse.t) : Prop :=
  PredictionResponse.Predictions p = []
  \/ PredictionResponse.Count p
     <> Z.of_nat (List.length (PredictionResponse.Predictions p))
  \/ Exists (fun x => RawPrediction.StationID x = "")
       (PredictionResponse.Predictions p)
  \/ Exists (fun x => RawPrediction.PredictionTime x = "")
       (PredictionResponse.Predictions p).

(** The response of the test "invalid response - count mismatch": one
    element, count 5. *)
Definition raw123 : RawPrediction.t :=
  RawPrediction.mk "123" 1 "2023-01-01T12:00:00Z" 6 "green".

Definition count_mismatch : PredictionResponse.t :=
  PredictionResponse.mk [raw123] 5 "2023-01-01T12:00:00Z".

End MLSpec.

Module ConvertSpec.
Import ML.

Section WithParser.
Variable time_Parse : string -> string -> Time + error.

(** The record the loop body builds for [pred] with prediction time
    [predTime]. *)
Definition record_of (pred : RawPrediction.t) (predTime : Time)
  : Prediction.t :=
  {| Prediction.ID := 0;
     Prediction.StationID := RawPrediction.StationID pred;
     Prediction.PredictedAvailabilityClass :=
       RawPrediction.PredictedAvailabilityClass pred;
     Prediction.AvailabilityPrediction :=
       RawPrediction.AvailabilityPrediction pred;
     Prediction.PredictionTime := predTime;
     Prediction.HorizonHours := RawPrediction.HorizonHours pred;
     Prediction.CreatedAt := zeroTime |}.

(** Whether the prediction time of [pred] fails to parse. *)
Definition unparsable (pred : RawPrediction.t) : bool :=
  match time_Parse RFC3339 (RawPrediction.PredictionTime pred) with
  | inl _ => false
  | inr _ => true
  end.

(** How many of [raws] have a prediction time that fails to parse. *)
Definition parse_failures (raws : list RawPrediction.t) : nat :=
  List.length (filter unparsable raws).

(** The records of [raws] when [n] is the next reading of the clock with
    readings [rd]: a parsed time is kept, a failed parse takes a reading. *)
Fixpoint records (rd : nat -> Time) (n : nat) (raws : list RawPrediction.t)
  : list Prediction.t :=
  match raws with
  | [] => []
  | pred :: rest =>
    match time_Parse RFC3339 (RawPrediction.PredictionTime pred) with
    | inl t => record_of pred t :: records rd n rest
    | inr _ => record_of pred (rd n) :: records rd (S n) rest
    end
  end.

End WithParser.

(** A parser that accepts only the timestamp of the tests. *)
Definition parse_test_time (layout value : string) : Time + error :=
  if String.eqb value "2023-01-01T12:00:00Z" then inl 63808171200000000000
  else inr (errors_New "parsing time: cannot parse").

(** A clock that shows 1000, 1001, ... *)
Definition test_clock : Clock := mkClock (fun n => 1000 + Z.of_nat n) 0.

(** A raw prediction whose time does not parse. *)
Definition raw_unparsable : RawPrediction.t :=
  RawPrediction.mk "456" 2 "not-a-time" 6 "red".

End ConvertSpec.

Module SchedSpec.
Import Sched.

(** The largest [DataCollectionIntervalMin] whose length in nanoseconds is a
    [time.Duration]: [153722867 * Minute < 2^63 <= 153722868 * Minute]. *)
Definition maxIntervalMin : Z := 153722867.

(** An environment in which every call takes one second and succeeds. *)
Definition calm : Env :=
  mkEnv (fun _ => (1000000000%N, None)) (fun _ => (1000000000%N, None))
    (fun _ => true) (0%N, None).

(** 2023-01-01T12:00:00Z. *)
Definition noon : Time := 63808171200000000000.

(** As [calm], with a server that needs 8 seconds to drain its connections
    on shutdown. *)
Definition draining : Env :=
  mkEnv (fun _ => (1000000000%N, None)) (fun _ => (1000000000%N, None))
    (fun _ => true) (8000000000%N, None).

End SchedSpec.

Module ExtraSpec.

(** What the feed must supply for the converted availability record to pass
    [StationAvailability.Validate]. *)
Definition feed_status_ok (d : DivvyStationStatus.t) : Prop :=
  DivvyStationStatus.StationID d <> ""
  /\ 0 <= DivvyStationStatus.NumBikesAvailable d
  /\ 0 <= DivvyStationStatus.NumDocksAvailable d.

(** The store answers the next [n] fallible operations with success. *)
Definition succeed (n : nat) (d : DB.Database) : Prop :=
  Forall (fun o => o = None) (firstn n (DB.script d)).

(** The operations of a batch of [UpsertStations] or [InsertAvailabilities]
    that went through. *)
Definition full_batch {A : Type} (query : string)
  (args_of : A -> list DB.SqlArg) (rows : list A) : list DB.SqlOp :=
  [DB.OpBeginTx; DB.OpPrepareContext query]
  ++ map (fun r => DB.OpExecContext (args_of r)) rows
  ++ [DB.OpCommit; DB.OpStmtClose; DB.OpRollback].

(** The operations of a batch of [InsertPredictions] that went through. *)
Definition full_prediction_batch (rows : list Prediction.t)
  : list DB.SqlOp :=
  [DB.OpBeginTx; DB.OpPrepareContext DB.queryInsertPrediction]
  ++ map (fun r => DB.OpExecContext (DB.prediction_args r)) rows
  ++ [DB.OpStmtClose; DB.OpCommit; DB.OpRollback].

(** The orchestrator with [MLService] as its gateway. *)
Definition service {W : Type}
  (json_Decode : string -> PredictionResponse.t + error)
  (roundTrip : W -> ML.HTTPResult * W) (db : DatabaseInterface W)
  : ML.InferenceService W :=
  ML.NewInferenceService W (Gateway.MLService json_Decode roundTrip) db.

(** The response of the test "success". *)
Definition valid_response : PredictionResponse.t :=
  PredictionResponse.mk [MLSpec.raw123] 1 "2023-01-01T12:00:00Z".

(** A database, over any world, that accepts every write and holds no
    prediction. *)
Definition idle_database {W : Type} : DatabaseInterface W :=
  {| UpsertStations := fun _ w => (None, w);
     InsertAvailabilities := fun _ w => (None, w);
     InsertPredictions := fun _ w => (None, w);
     GetLatestPredictions := fun w => (([], None), w) |}.



(** The largest [PredictionIntervalHours] whose length in nanoseconds is a
    [time.Duration]. *)
Definition maxIntervalHours : Z := 2562047.

(** An inference service that refuses three calls, each after a second,
    and never answers the fourth. *)
Definition refuses_then_hangs (k : nat) : option (N * option error) :=
  if (k <? 3)%nat then Some (1000000000%N, Some Mock.AnError) else None.

End ExtraSpec.

(** * Properties *)

(** ** Slices filled by a range loop *)

Section RangeAssign.
Context {A B : Type}.

Lemma assign_length (s : list B) (i : nat) (v : B) :
  List.length (assign s i v) = List.length s.
Proof.
  revert i; induction s as [|hd tl IH]; intros [|j]; simpl; auto.
Qed.

Lemma assign_firstn (s : list B) (i : nat) (v : B) :
  firstn i (assign s i v) = firstn i s.
Proof.
  revert i; induction s as [|hd tl IH]; intros [|j]; simpl; auto.
  now rewrite IH.
Qed.

Lemma assign_firstn_S (s : list B) (i : nat) (v : B) :
  (i < List.length s)%nat ->
  firstn (S i) (assign s i v) = firstn i s ++ [v].
Proof.
  revert i; induction s as [|hd tl IH]; intros [|j] Hlt; simpl in *;
    try lia; auto.
  f_equal. apply IH. lia.
Qed.

Lemma range_assign_prefix (f : A -> B) (src : list A) :
  forall (i : nat) (dst : list B),
    List.length dst = (i + List.length src)%nat ->
    range_assign f src i dst = firstn i dst ++ map f src.
Proof.
  induction src as [|x rest IH]; intros i dst Hlen; simpl in *.
  - rewrite Nat.add_0_r in Hlen. rewrite app_nil_r.
    symmetry. apply firstn_all2. lia.
  - rewrite IH by (rewrite assign_length; lia).
    rewrite assign_firstn_S by lia.
    now rewrite <- app_assoc.
Qed.

(** The loop [dst := make([]B, len(src)); for i, x := range src
    { dst[i] = f(x) }] leaves [f] of every element, in order. *)
Lemma range_assign_map (zero : B) (f : A -> B) (src : list A) :
  range_assign f src 0 (make zero (List.length src)) = map f src.
Proof.
  rewrite range_assign_prefix by (unfold make; now rewrite repeat_length).
  reflexivity.
Qed.

End RangeAssign.

Lemma len_cons_nonzero {A : Type} (x : A) (l : list A) :
  (len (x :: l) =? 0) = false.
Proof. unfold len. simpl List.length. apply Z.eqb_neq. lia. Qed.

(** ** The data-collection use case *)

Module StationSvcProps.
Import StationSvc StationSvcSpec.

Lemma Validate_convertToStation (d : DivvyStation.t) :
  Station.Validate (convertToStation d) = None <-> feed_station_ok d.
Proof.
  unfold Station.Validate, feed_station_ok, convertToStation; simpl.
  destruct (String.eqb_spec (DivvyStation.StationID d) "") as [Hid|Hid].
  { split; [discriminate | intros [H _]; contradiction]. }
  destruct (String.eqb_spec (DivvyStation.Name d) "") as [Hn|Hn].
  { split; [discriminate | intros (_ & H & _); contradiction]. }
  destruct (Z.ltb_spec (DivvyStation.Capacity d) 0) as [Hc|Hc].
  { split; [discriminate | intros (_ & _ & H); lia]. }
  split; auto.
Qed.

(** A run whose fetch succeeded, unfolded up to the outcome of the upsert. *)
Lemma RefreshStationData_fetched {W : Type} (s : StationService W) (w w1 : W)
  (stations : list DivvyStation.t) (statuses : list DivvyStationStatus.t) :
  FetchStationData (divvyClient s) w = ((stations, statuses, None), w1) ->
  RefreshStationData s (w, []) =
  let dbStations := map convertToStation stations in
  let availabilities := map convertToAvailability statuses in
  match UpsertStations (database s) dbStations w1 with
  | (Some e, w2) =>
    (Some (fmt_Errorf_w "failed to store stations: %w" [] e),
     (w2, [CallFetchStationData; CallUpsertStations dbStations]))
  | (None, w2) =>
    match InsertAvailabilities (database s) availabilities w2 with
    | (Some e, w3) =>
      (Some (fmt_Errorf_w "failed to store availabilities: %w" [] e),
       (w3, [CallFetchStationData; CallUpsertStations dbStations;
             CallInsertAvailabilities availabilities]))
    | (None, w3) =>
      (None,
       (w3, [CallFetchStationData; CallUpsertStations dbStations;
             CallInsertAvailabilities availabilities]))
    end
  end.
Proof.
  intros Hfetch. unfold RefreshStationData. rewrite Hfetch.
  rewrite !range_assign_map. cbv zeta.
  destruct (UpsertStations (database s) (map convertToStation stations) w1)
    as [[e|] w2]; [reflexivity|].
  destruct (InsertAvailabilities (database s)
              (map convertToAvailability statuses) w2) as [[e|] w3];
    reflexivity.
Qed.

(** After a fetch that returned no error the upsert is called once, with the
    converted stations. *)
Lemma upsert_calls_fetched {W : Type} (s : StationService W) (w w1 : W)
  (stations : list DivvyStation.t) (statuses : list DivvyStationStatus.t) :
  FetchStationData (divvyClient s) w = ((stations, statuses, None), w1) ->
  upsert_calls (trace_of (RefreshStationData s (w, [])))
  = [map convertToStation stations].
Proof.
  intros Hfetch.
  rewrite (RefreshStationData_fetched s w w1 stations statuses Hfetch).
  cbv zeta.
  destruct (UpsertStations (database s) (map convertToStation stations) w1)
    as [[e|] w2]; [reflexivity|].
  destruct (InsertAvailabilities (database s)
              (map convertToAvailability statuses) w2) as [[e|] w3];
    reflexivity.
Qed.

(** C1, as amended: after a fetch that returned no error, [UpsertStations]
    is called exactly once, with one converted record per fetched station
    (none for an empty feed); and when that call returns no error,
    [InsertAvailabilities] is called exactly once, with one converted record
    per fetched status. *)
Theorem RefreshStationData_call_sizes {W : Type} (s : StationService W)
  (w w1 : W) (stations : list DivvyStation.t)
  (statuses : list DivvyStationStatus.t) :
  FetchStationData (divvyClient s) w = ((stations, statuses, None), w1) ->
  let tr := trace_of (RefreshStationData s (w, [])) in
  let dbStations := map convertToStation stations in
  let availabilities := map convertToAvailability statuses in
  upsert_calls tr = [dbStations]
  /\ List.length dbStations = List.length stations
  /\ (fst (UpsertStations (database s) dbStations w1) = None ->
      insert_calls tr = [availabilities]
      /\ List.length availabilities = List.length statuses).
Proof.
  intros Hfetch tr dbStations availabilities. subst tr.
  rewrite (RefreshStationData_fetched s w w1 stations statuses Hfetch).
  cbv zeta. fold dbStations availabilities.
  destruct (UpsertStations (database s) dbStations w1) as [[e|] w2] eqn:Hup.
  - split; [reflexivity|]. split; [apply length_map|].
    simpl. discriminate.
  - destruct (InsertAvailabilities (database s) availabilities w2)
      as [[e|] w3]; (split; [reflexivity|]); (split; [apply length_map|]);
      intros _; (split; [reflexivity | apply length_map]).
Qed.

(** The test's feed of one station and one status, through a database that
    accepts both writes. *)
Lemma RefreshStationData_call_sizes_witness :
  upsert_calls
    (trace_of
       (RefreshStationData
          (NewStationService unit (Mock.MockDatabase None None None ([], None))
             (Mock.MockDivvyClient [Mock.station123] [Mock.status123] None))
          (tt, [])))
  = [map convertToStation [Mock.station123]]
  /\ insert_calls
       (trace_of
          (RefreshStationData
             (NewStationService unit (Mock.MockDatabase None None None ([], None))
                (Mock.MockDivvyClient [Mock.station123] [Mock.status123] None))
             (tt, [])))
     = [map convertToAvailability [Mock.status123]].
Proof.
  pose proof
    (RefreshStationData_call_sizes
       (NewStationService unit (Mock.MockDatabase None None None ([], None))
          (Mock.MockDivvyClient [Mock.station123] [Mock.status123] None))
       tt tt [Mock.station123] [Mock.status123] eq_refl) as H.
  cbv zeta in H. destruct H as (Hup & _ & Hins).
  split; [exact Hup | exact (proj1 (Hins eq_refl))].
Defined.

(** C1, as stated, fails: the fetch returns one station and one status, the
    upsert returns an error, and [InsertAvailabilities] is never called. *)
Lemma RefreshStationData_upsert_error_no_insert :
  fst (FetchStationData
         (Mock.MockDivvyClient [Mock.station123] [Mock.status123] None) tt)
  = ([Mock.station123], [Mock.status123], None)
  /\ insert_calls
       (trace_of
          (RefreshStationData
             (NewStationService unit
                (Mock.MockDatabase (Some Mock.AnError) None None ([], None))
                (Mock.MockDivvyClient [Mock.station123] [Mock.status123] None))
             (tt, [])))
     = [].
Proof. split; reflexivity. Qed.

(** C2: when the fetch returns an error, the run returns that very error
    and the only interface call made is the fetch; when the upsert returns
    an error, the run returns an error (wrapping it) and
    [InsertAvailabilities] is not called. *)
Theorem RefreshStationData_aborts {W : Type} (s : StationService W) (w : W) :
  (forall stations statuses e w1,
      FetchStationData (divvyClient s) w = ((stations, statuses, Some e), w1) ->
      RefreshStationData s (w, []) = (Some e, (w1, [CallFetchStationData])))
  /\ (forall stations statuses w1 e w2,
         FetchStationData (divvyClient s) w = ((stations, statuses, None), w1) ->
         UpsertStations (database s) (map convertToStation stations) w1
         = (Some e, w2) ->
         fst (RefreshStationData s (w, []))
         = Some (fmt_Errorf_w "failed to store stations: %w" [] e)
         /\ insert_calls (trace_of (RefreshStationData s (w, []))) = []).
Proof.
  split.
  - intros stations statuses e w1 Hfetch.
    unfold RefreshStationData. now rewrite Hfetch.
  - intros stations statuses w1 e w2 Hfetch Hup.
    rewrite (RefreshStationData_fetched s w w1 stations statuses Hfetch).
    cbv zeta. rewrite Hup. split; reflexivity.
Qed.

(** C8, as amended: every record handed to the upsert carries the feed's
    station ID, name and capacity unchanged, and the records pass
    [Station.Validate] exactly when every fetched station has a non-empty ID,
    a non-empty name and a capacity that is not negative. *)
Theorem RefreshStationData_upserts_feed_verbatim {W : Type}
  (s : StationService W) (w w1 : W) (stations : list DivvyStation.t)
  (statuses : list DivvyStationStatus.t) :
  FetchStationData (divvyClient s) w = ((stations, statuses, None), w1) ->
  exists dbStations,
    upsert_calls (trace_of (RefreshStationData s (w, []))) = [dbStations]
    /\ Forall2
         (fun d st =>
            Station.StationID st = DivvyStation.StationID d
            /\ Station.Name st = DivvyStation.Name d
            /\ Station.Capacity st = DivvyStation.Capacity d)
         stations dbStations
    /\ (Forall (fun st => Station.Validate st = None) dbStations
        <-> Forall feed_station_ok stations).
Proof.
  intros Hfetch. exists (map convertToStation stations).
  split; [|split].
  - exact (upsert_calls_fetched s w w1 stations statuses Hfetch).
  - clear Hfetch. induction stations as [|d rest IH]; simpl; constructor; auto.
  - rewrite Forall_map. split; intros H; eapply Forall_impl; try exact H;
      intros d Hd; now apply Validate_convertToStation.
Qed.

Lemma RefreshStationData_upserts_feed_verbatim_witness :
  exists dbStations,
    upsert_calls
      (trace_of
         (RefreshStationData
            (NewStationService unit (Mock.MockDatabase None None None ([], None))
               (Mock.MockDivvyClient [Mock.station123] [Mock.status123] None))
            (tt, [])))
    = [dbStations]
    /\ Forall2
         (fun d st =>
            Station.StationID st = DivvyStation.StationID d
            /\ Station.Name st = DivvyStation.Name d
            /\ Station.Capacity st = DivvyStation.Capacity d)
         [Mock.station123] dbStations
    /\ (Forall (fun st => Station.Validate st = None) dbStations
        <-> Forall feed_station_ok [Mock.station123]).
Proof.
  exact (RefreshStationData_upserts_feed_verbatim
           (NewStationService unit (Mock.MockDatabase None None None ([], None))
              (Mock.MockDivvyClient [Mock.station123] [Mock.status123] None))
           tt tt [Mock.station123] [Mock.status123] eq_refl).
Defined.

(** C8, as stated, fails: the record the cycle hands to the upsert for
    [blank_station] has an empty ID and is refused by [Station.Validate]. *)
Lemma RefreshStationData_upserts_invalid_station :
  upsert_calls
    (trace_of
       (RefreshStationData
          (NewStationService unit (Mock.MockDatabase None None None ([], None))
             (Mock.MockDivvyClient [blank_station] [] None))
          (tt, [])))
  = [[convertToStation blank_station]]
  /\ Station.StationID (convertToStation blank_station) = ""
  /\ Station.Name (convertToStation blank_station) = ""
  /\ Station.Capacity (convertToStation blank_station) < 0
  /\ Station.Validate (convertToStation blank_station)
     = Some (errors_New "station ID is required").
Proof. repeat split. Qed.

(** The test "fetch error": the error comes back as it is and the database
    is not called. *)
Lemma RefreshStationData_fetch_error_example :
  RefreshStationData
    (NewStationService unit (Mock.MockDatabase None None None ([], None))
       (Mock.MockDivvyClient [] [] (Some Mock.AnError)))
    (tt, [])
  = (Some Mock.AnError, (tt, [CallFetchStationData])).
Proof. reflexivity. Qed.

(** The test "empty data": both writes are called, each with an empty
    slice. *)
Lemma RefreshStationData_empty_feed_example :
  RefreshStationData
    (NewStationService unit (Mock.MockDatabase None None None ([], None))
       (Mock.MockDivvyClient [] [] None))
    (tt, [])
  = (None,
     (tt, [CallFetchStationData; CallUpsertStations [];
           CallInsertAvailabilities []])).
Proof. reflexivity. Qed.

End StationSvcProps.

(** ** The bulk writes of the persistence gateway *)

Module DBProps.
Import DB DBSpec.

Lemma fallible_ops (op : SqlOp) (d : Database) :
  received_after d (snd (fallible op d)) [op].
Proof. unfold fallible, received_after. now destruct (script d). Qed.

Lemma exec_each_ops {A : Type} (args_of : A -> list SqlArg)
  (station_of : A -> string) (format : string) (rows : list A) :
  forall d, exists more,
    received_after d (snd (exec_each args_of station_of format rows d)) more.
Proof.
  induction rows as [|row rest IH]; intros d; simpl.
  - exists []. unfold received_after. now rewrite app_nil_r.
  - pose proof (fallible_ops (OpExecContext (args_of row)) d) as Hf.
    destruct (fallible (OpExecContext (args_of row)) d) as [[e|] d1];
      simpl in Hf.
    + now exists [OpExecContext (args_of row)].
    + destruct (IH d1) as [more Hmore].
      exists (OpExecContext (args_of row) :: more).
      unfold received_after in *. rewrite Hmore, Hf.
      now rewrite <- app_assoc.
Qed.

(** A batch that got past the length test starts with [BeginTx]. *)
Lemma prepared_batch_begins {A : Type} (query : string)
  (args_of : A -> list SqlArg) (station_of : A -> string) (format : string)
  (rows : list A) (d : Database) :
  exists more,
    received_after d
      (snd (prepared_batch query args_of station_of format rows d))
      (OpBeginTx :: more).
Proof.
  unfold prepared_batch.
  pose proof (fallible_ops OpBeginTx d) as H1.
  destruct (fallible OpBeginTx d) as [[e|] d1]; simpl in H1.
  { now exists []. }
  pose proof (fallible_ops (OpPrepareContext query) d1) as H2.
  destruct (fallible (OpPrepareContext query) d1) as [[e|] d2]; simpl in H2.
  { exists [OpPrepareContext query; OpRollback].
    unfold received_after in *. simpl. rewrite H2, H1.
    now rewrite <- !app_assoc. }
  destruct (exec_each_ops args_of station_of format rows d2) as [more H3].
  destruct (exec_each args_of station_of format rows d2) as [[e|] d3];
    simpl in H3.
  { exists (OpPrepareContext query :: more ++ [OpStmtClose; OpRollback]).
    unfold received_after in *. simpl. rewrite H3, H2, H1.
    rewrite <- !app_assoc. reflexivity. }
  pose proof (fallible_ops OpCommit d3) as H4.
  destruct (fallible OpCommit d3) as [e4 d4]; simpl in H4.
  exists (OpPrepareContext query :: more
          ++ [OpCommit; OpStmtClose; OpRollback]).
  unfold received_after in *. simpl. rewrite H4, H3, H2, H1.
  rewrite <- !app_assoc. reflexivity.
Qed.

Lemma withTransaction_begins (fn : Database -> option error * Database)
  (d : Database) :
  (forall tx, exists more, received_after tx (snd (fn tx)) more) ->
  exists more,
    received_after d (snd (withTransaction fn d)) (OpBeginTx :: more).
Proof.
  intros Hfn. unfold withTransaction.
  pose proof (fallible_ops OpBeginTx d) as H1.
  destruct (fallible OpBeginTx d) as [[e|] d1]; simpl in H1.
  { now exists []. }
  destruct (Hfn d1) as [more H2].
  destruct (fn d1) as [[e|] d2]; simpl in H2.
  { exists (more ++ [OpRollback]).
    unfold received_after in *. simpl. rewrite H2, H1.
    rewrite <- !app_assoc. reflexivity. }
  pose proof (fallible_ops OpCommit d2) as H3.
  destruct (fallible OpCommit d2) as [e3 d3]; simpl in H3.
  exists (more ++ [OpCommit; OpRollback]).
  unfold received_after in *. simpl. rewrite H3, H2, H1.
  rewrite <- !app_assoc. reflexivity.
Qed.

Lemma received_after_changes (d d' : Database) (op : SqlOp)
  (more : list SqlOp) :
  received_after d d' (op :: more) -> d' <> d.
Proof.
  unfold received_after. intros H ->.
  apply (f_equal (@List.length SqlOp)) in H.
  rewrite length_app in H. simpl in H. lia.
Qed.

(** C10: each bulk write given an empty slice returns [nil] and leaves the
    store as it was, no [BeginTx] sent; and only then: given any row, the
    first thing the store receives is a [BeginTx]. *)
Theorem bulk_writes_skip_empty (d : Database) :
  (UpsertStations [] d = (None, d)
   /\ InsertAvailabilities [] d = (None, d)
   /\ InsertPredictions [] d = (None, d))
  /\ (forall stations, snd (UpsertStations stations d) = d <-> stations = [])
  /\ (forall availabilities,
         snd (InsertAvailabilities availabilities d) = d
         <-> availabilities = [])
  /\ (forall predictions,
         snd (InsertPredictions predictions d) = d <-> predictions = []).
Proof.
  split; [repeat split|]. split; [|split].
  - intros [|st rest]; split; try reflexivity; try discriminate.
    intros H. exfalso. unfold UpsertStations in H.
    rewrite len_cons_nonzero in H.
    destruct (prepared_batch_begins queryUpsertStation station_args
                Station.StationID "exec station %s: %w" (st :: rest) d)
      as [more Hm].
    exact (received_after_changes _ _ _ _ Hm H).
  - intros [|av rest]; split; try reflexivity; try discriminate.
    intros H. exfalso. unfold InsertAvailabilities in H.
    rewrite len_cons_nonzero in H.
    destruct (prepared_batch_begins queryInsertAvailability availability_args
                StationAvailability.StationID "exec availability %s: %w"
                (av :: rest) d) as [more Hm].
    exact (received_after_changes _ _ _ _ Hm H).
  - intros [|pr rest]; split; try reflexivity; try discriminate.
    intros H. exfalso. unfold InsertPredictions in H.
    rewrite len_cons_nonzero in H.
    match type of H with
    | snd (withTransaction ?fn d) = d =>
      destruct (withTransaction_begins fn d) as [more Hm]
    end.
    { intros tx.
      pose proof (fallible_ops (OpPrepareContext queryInsertPrediction) tx)
        as H1.
      destruct (fallible (OpPrepareContext queryInsertPrediction) tx)
        as [[e|] d1]; simpl in H1.
      { now exists [OpPrepareContext queryInsertPrediction]. }
      destruct (exec_each_ops prediction_args Prediction.StationID
                  "insert prediction for station %s: %w" (pr :: rest) d1)
        as [more H2].
      destruct (exec_each prediction_args Prediction.StationID
                  "insert prediction for station %s: %w" (pr :: rest) d1)
        as [e2 d2]; simpl in H2.
      exists (OpPrepareContext queryInsertPrediction :: more ++ [OpStmtClose]).
      unfold received_after in *. simpl. rewrite H2, H1.
      rewrite <- !app_assoc. reflexivity. }
    exact (received_after_changes _ _ _ _ Hm H).
Qed.

End DBProps.

(** ** The health endpoint *)

Module HandlersProps.
Import Handlers.

(** C9: the health endpoint answers 503 with status "unhealthy" exactly when
    the latest-predictions query returns an error or no prediction; in every
    other case it answers 200 with status "healthy" and a
    [predictions_count] equal to the number of predictions returned. *)
Theorem HealthCheck_reports_predictions {W : Type}
  (database : DatabaseInterface W) (w : W) :
  let predictions := fst (fst (GetLatestPredictions database w)) in
  let err := snd (fst (GetLatestPredictions database w)) in
  let resp := fst (HealthCheck database (w, [])) in
  ((err <> None \/ predictions = [])
   <-> (Code resp = 503 /\ field "status" (Obj resp) = Some (JString "unhealthy")))
  /\ (~ (err <> None \/ predictions = []) ->
      Code resp = 200
      /\ field "status" (Obj resp) = Some (JString "healthy")
      /\ field "predictions_count" (Obj resp)
         = Some (JInt (Z.of_nat (List.length predictions)))).
Proof.
  unfold HealthCheck.
  destruct (GetLatestPredictions database w) as [[predictions err] w1].
  cbn [fst snd].
  destruct err as [e|].
  - cbn. split.
    + split; [intros _; split; reflexivity | intros _; left; discriminate].
    + intros H. exfalso. apply H. left. discriminate.
  - destruct predictions as [|p rest].
    + cbn. split.
      * split; [intros _; split; reflexivity | intros _; now right].
      * intros H. exfalso. apply H. now right.
    + rewrite orb_false_l, len_cons_nonzero. cbn [fst Code Obj].
      split.
      * split.
        -- intros [H|H]; [now contradiction H | discriminate].
        -- intros [H _]. discriminate.
      * intros _. repeat split.
Qed.

(** The three cases of the test [TestHTTPHandlers_HealthCheck]. *)
Lemma HealthCheck_examples :
  fst (HealthCheck
         (Mock.MockDatabase None None None
            ([Prediction.mk 0 "123" 1 "" zeroTime 0 zeroTime], None))
         (tt, []))
  = mkResponse 200
      [("status", JString "healthy"); ("service", JString "divvy-api");
       ("predictions_count", JInt 1)]
  /\ Code (fst (HealthCheck (Mock.MockDatabase None None None ([], None))
                  (tt, []))) = 503
  /\ Code (fst (HealthCheck
                  (Mock.MockDatabase None None None ([], Some Mock.AnError))
                  (tt, []))) = 503.
Proof. repeat split. Qed.

End HandlersProps.

(** ** The prediction gateway and the inference orchestrator *)

Module MLProps.
Import ML MLSpec.

Lemma validate_each_None (preds : list RawPrediction.t) :
  forall i, PredictionResponse.validate_each i preds = None
            <-> Forall element_ok preds.
Proof.
  induction preds as [|x rest IH]; intros i; simpl.
  - split; auto.
  - unfold element_ok at 1.
    destruct (String.eqb_spec (RawPrediction.StationID x) "") as [Hid|Hid].
    { split; [discriminate|]. intros H. inversion H as [|? ? [Hx _] _].
      contradiction. }
    destruct (String.eqb_spec (RawPrediction.PredictionTime x) "") as [Ht|Ht].
    { split; [discriminate|]. intros H. inversion H as [|? ? [_ Hx] _].
      contradiction. }
    rewrite IH. split.
    + intros H. constructor; [split|]; assumption.
    + intros H. now inversion H.
Qed.

Lemma Forall_element_ok (preds : list RawPrediction.t) :
  Forall element_ok preds
  <-> ~ (Exists (fun x => RawPrediction.StationID x = "") preds
         \/ Exists (fun x => RawPrediction.PredictionTime x = "") preds).
Proof.
  induction preds as [|x rest IH].
  - split; [|constructor]. intros _ [H|H]; inversion H.
  - split.
    + intros H [Hex|Hex]; inversion H as [|? ? [Hid Ht] Hrest]; subst;
        inversion Hex; subst; try contradiction;
        apply IH in Hrest; apply Hrest; auto.
    + intros H. constructor.
      * split; intros Heq; apply H; [left|right]; now constructor.
      * apply IH. intros [Hex|Hex]; apply H; [left|right];
          now apply Exists_cons_tl.
Qed.

Lemma Validate_Some_iff (p : PredictionResponse.t) :
  (exists e, PredictionResponse.Validate p = Some e) <-> violates_contract p.
Proof.
  unfold PredictionResponse.Validate, violates_contract, len.
  destruct (PredictionResponse.Predictions p) as [|x rest] eqn:Hp.
  { simpl. split; [now left | intros _; eauto]. }
  assert (Hnz : (Z.of_nat (List.length (x :: rest)) =? 0) = false)
    by (apply Z.eqb_neq; simpl List.length; lia).
  rewrite Hnz.
  destruct (Z.eqb_spec (PredictionResponse.Count p)
              (Z.of_nat (List.length (x :: rest)))) as [Hc|Hc]; cbn [negb].
  - destruct (PredictionResponse.validate_each 0 (x :: rest)) as [e|] eqn:Hv.
    + split; [|eauto]. intros _.
      assert (Hn : ~ Forall element_ok (x :: rest)).
      { intros HF. apply (validate_each_None (x :: rest) 0) in HF.
        congruence. }
      right. right.
      destruct (Exists_dec (fun y => RawPrediction.StationID y = "")
                  (x :: rest)) as [He|He].
      { intros y. apply string_dec. }
      { now left. }
      right.
      destruct (Exists_dec (fun y => RawPrediction.PredictionTime y = "")
                  (x :: rest)) as [He'|He'].
      { intros y. apply string_dec. }
      { exact He'. }
      exfalso. apply Hn. apply Forall_element_ok. intros [H|H]; contradiction.
    + apply validate_each_None in Hv. apply Forall_element_ok in Hv.
      split.
      * intros [e He]. discriminate.
      * intros [H|[H|[H|H]]]; try discriminate; try contradiction;
          exfalso; apply Hv; auto.
  - split; [|eauto]. intros _. right. now left.
Qed.

(** C3: for a response that was received with status 200 and decoded,
    [GetPredictions] returns an error and no batch exactly when the
    predictions list is empty, or the count differs from its length, or some
    element has an empty station ID, or some element has an empty
    prediction-time string; in every other case it returns the decoded
    response itself and no error. *)
Theorem GetPredictions_rejects_exactly
  (json_Decode : string -> PredictionResponse.t + error) (body : string)
  (p : PredictionResponse.t) :
  json_Decode body = inl p ->
  let r := GetPredictions json_Decode (HTTPResponse StatusOK body) in
  ((exists e, r = (None, Some e)) <-> violates_contract p)
  /\ (~ violates_contract p -> r = (Some p, None)).
Proof.
  intros Hdec. cbv zeta. unfold GetPredictions.
  rewrite Z.eqb_refl. cbn [negb]. rewrite Hdec.
  pose proof (Validate_Some_iff p) as Hv.
  destruct (PredictionResponse.Validate p) as [e|].
  - assert (Hbad : violates_contract p) by (apply Hv; eauto).
    split.
    + split; [intros _; exact Hbad | intros _; eauto].
    + intros H. contradiction.
  - assert (Hok : ~ violates_contract p).
    { intros H. apply Hv in H. destruct H as [e He]. discriminate. }
    split.
    + split; [intros [e He]; discriminate | intros H; contradiction].
    + reflexivity.
Qed.

Lemma GetPredictions_rejects_exactly_witness :
  ((exists e,
       GetPredictions (fun _ => inl count_mismatch) (HTTPResponse StatusOK "{}")
       = (None, Some e))
   <-> violates_contract count_mismatch)
  /\ (~ violates_contract count_mismatch ->
      GetPredictions (fun _ => inl count_mismatch) (HTTPResponse StatusOK "{}")
      = (Some count_mismatch, None)).
Proof.
  exact (GetPredictions_rejects_exactly (fun _ => inl count_mismatch) "{}"
           count_mismatch eq_refl).
Defined.

End MLProps.

Module ConvertProps.
Import ML MLSpec ConvertSpec.

Section WithParser.
Variable time_Parse : string -> string -> Time + error.

Lemma records_length (rd : nat -> Time) (raws : list RawPrediction.t) :
  forall n, List.length (records time_Parse rd n raws) = List.length raws.
Proof.
  induction raws as [|pred rest IH]; intros n; simpl; auto.
  destruct (time_Parse _ _); simpl; now rewrite IH.
Qed.

Lemma records_nth (rd : nat -> Time) (raws : list RawPrediction.t) :
  forall n i raw,
    nth_error raws i = Some raw ->
    nth_error (records time_Parse rd n raws) i
    = Some (record_of raw
              (match time_Parse RFC3339 (RawPrediction.PredictionTime raw) with
               | inl t => t
               | inr _ => rd (n + parse_failures time_Parse (firstn i raws))%nat
               end)).
Proof.
  induction raws as [|pred rest IH]; intros n [|j] raw Hnth; simpl in Hnth;
    try discriminate.
  - inversion Hnth; subst. simpl. unfold parse_failures. simpl.
    rewrite Nat.add_0_r.
    now destruct (time_Parse RFC3339 (RawPrediction.PredictionTime raw)).
  - unfold parse_failures in *. simpl firstn. simpl filter.
    unfold unparsable at 1. simpl records.
    destruct (time_Parse RFC3339 (RawPrediction.PredictionTime pred));
      simpl nth_error.
    + now apply IH.
    + rewrite (IH (S n) j raw Hnth). simpl List.length.
      now rewrite Nat.add_succ_r.
Qed.

Lemma convert_each_records (raws : list RawPrediction.t) :
  forall i dst c,
    List.length dst = (i + List.length raws)%nat ->
    convert_each time_Parse raws i dst c
    = (firstn i dst ++ records time_Parse (readings c) (reads c) raws,
       mkClock (readings c) (reads c + parse_failures time_Parse raws)).
Proof.
  induction raws as [|pred rest IH]; intros i dst c Hlen; simpl in *.
  - rewrite app_nil_r, firstn_all2 by lia.
    unfold parse_failures. simpl. rewrite Nat.add_0_r. now destruct c.
  - unfold parse_failures. simpl filter. unfold unparsable at 1.
    destruct (time_Parse RFC3339 (RawPrediction.PredictionTime pred)) as [t|e].
    + rewrite IH by (rewrite assign_length; lia).
      rewrite assign_firstn_S by lia. now rewrite <- app_assoc.
    + unfold Now. rewrite IH by (rewrite assign_length; lia).
      rewrite assign_firstn_S by lia. cbn [readings reads].
      rewrite <- app_assoc. simpl List.length.
      unfold parse_failures. now rewrite Nat.add_succ_r.
Qed.

Lemma convertPredictions_records (raws : list RawPrediction.t) (c : Clock) :
  convertPredictions time_Parse raws c
  = ((records time_Parse (readings c) (reads c) raws, None),
     mkClock (readings c) (reads c + parse_failures time_Parse raws)).
Proof.
  unfold convertPredictions.
  rewrite convert_each_records by (unfold make; now rewrite repeat_length).
  reflexivity.
Qed.

End WithParser.

(** C4: the conversion returns no error and one record per raw prediction,
    in the same order, with the station ID, class, label and horizon of the
    raw prediction; the prediction time of a record is the parsed time when
    the string parses as RFC3339, and otherwise the reading of the wall clock
    ([time.Now]) taken at that element, the clock being read once per
    failed parse. *)
Theorem convertPredictions_one_record_each
  (time_Parse : string -> string -> Time + error)
  (raws : list RawPrediction.t) (c : Clock) :
  let predictions := fst (fst (convertPredictions time_Parse raws c)) in
  let err := snd (fst (convertPredictions time_Parse raws c)) in
  let c' := snd (convertPredictions time_Parse raws c) in
  err = None
  /\ List.length predictions = List.length raws
  /\ reads c' = (reads c + parse_failures time_Parse raws)%nat
  /\ (forall i raw,
         nth_error raws i = Some raw ->
         exists p,
           nth_error predictions i = Some p
           /\ Prediction.StationID p = RawPrediction.StationID raw
           /\ Prediction.PredictedAvailabilityClass p
              = RawPrediction.PredictedAvailabilityClass raw
           /\ Prediction.AvailabilityPrediction p
              = RawPrediction.AvailabilityPrediction raw
           /\ Prediction.HorizonHours p = RawPrediction.HorizonHours raw
           /\ Prediction.PredictionTime p
              = match time_Parse RFC3339 (RawPrediction.PredictionTime raw)
                with
                | inl t => t
                | inr _ =>
                  readings c
                    (reads c + parse_failures time_Parse (firstn i raws))%nat
                end).
Proof.
  cbv zeta. rewrite convertPredictions_records. cbn [fst snd reads].
  split; [reflexivity|]. split; [apply records_length|].
  split; [reflexivity|].
  intros i raw Hnth. eexists. split.
  - apply records_nth. exact Hnth.
  - repeat split.
Qed.

(** The unparsable element is kept, at its place, with the clock's reading. *)
Lemma convertPredictions_keeps_unparsable :
  fst (convertPredictions parse_test_time
         [raw123; raw_unparsable; raw123] test_clock)
  = ([record_of raw123 63808171200000000000;
      record_of raw_unparsable 1000;
      record_of raw123 63808171200000000000], None).
Proof. reflexivity. Qed.

(** When the gateway returns an error the orchestrator returns an error
    wrapping it, and no persistence call is made. *)
Lemma RunInferenceWithResults_gateway_error {W : Type}
  (time_Parse : string -> string -> Time + error) (s : InferenceService W)
  (w w1 : W) (c : Clock) (resp : option PredictionResponse.t) (e : error) :
  GetPredictions_ (mlService W s) w = ((resp, Some e), w1) ->
  RunInferenceWithResults time_Parse W s (w, c, [])
  = (Returned (Some (fmt_Errorf_w "get predictions: %w" [] e)), (w1, c, [])).
Proof.
  intros H. unfold RunInferenceWithResults. now rewrite H.
Qed.

End ConvertProps.

(** ** The scheduler *)

Module SchedProps.
Import Sched SchedSpec.

Lemma scale_Minute_exact (n : Z) :
  0 < n <= maxIntervalMin -> scale n Minute = n * Minute.
Proof.
  unfold scale, wrap64, maxIntervalMin, Minute, Second. intros H.
  rewrite Z.mod_small; lia.
Qed.

(** With [Background] the [ctx.Done()] case is never taken. *)
Lemma select_Background (env : Env) (now : Time) (timer : option Time) :
  select env Background now timer
  = match timer with
    | Some f => TimerFirst (Z.max now f)
    | None => Blocked
    end.
Proof. reflexivity. Qed.

(** C7, as amended: for every start instant and every collection interval
    of 1 to 153722867 minutes, the first [RefreshStationData] of the loop
    started by [Start] is invoked at the smallest instant after the start
    that is a multiple of the interval, hence never at the start itself. *)
Theorem first_fetch_at_next_boundary (cfg : Config.TimingConfig) (env : Env)
  (now : Time) (fuel : nat) :
  0 < Config.DataCollectionIntervalMin cfg <= maxIntervalMin ->
  let interval := Config.DataCollectionIntervalMin cfg * Minute in
  exists T,
    hd_error (refresh_times (startDataCollection cfg env Background now fuel))
    = Some T
    /\ T mod interval = 0
    /\ now < T
    /\ (forall T', now < T' -> T' mod interval = 0 -> T <= T').
Proof.
  intros Hmin interval.
  assert (Hpos : 0 < interval < 2 ^ 63).
  { unfold interval, maxIntervalMin, Minute, Second in *. lia. }
  exists (now - now mod interval + interval).
  pose proof (Z.mod_pos_bound now interval (proj1 Hpos)) as Hmod.
  split; [|split; [|split]].
  - unfold startDataCollection.
    rewrite (scale_Minute_exact _ Hmin). fold interval.
    unfold Truncate, Add, Sub, After, minDuration, maxDuration.
    destruct (Z.leb_spec interval 0) as [Hle|_]; [lia|].
    destruct (Z.ltb_spec (now - now mod interval + interval - now) (- 2 ^ 63))
      as [Hlt|_]; [lia|].
    destruct (Z.ltb_spec (2 ^ 63 - 1)
                (now - now mod interval + interval - now)) as [Hlt|_]; [lia|].
    rewrite select_Background.
    replace (Z.max now (now + (now - now mod interval + interval - now)))
      with (now - now mod interval + interval) by lia.
    destruct (refresh env 0) as [d r]. reflexivity.
  - rewrite (Z.div_mod now interval) at 1 by lia.
    replace (interval * (now / interval) + now mod interval
             - now mod interval + interval)
      with ((now / interval + 1) * interval) by ring.
    apply Z.mod_mul. lia.
  - lia.
  - intros T' Hafter Hmul.
    apply Z.mod_divide in Hmul; [|lia]. destruct Hmul as [q Hq]. subst T'.
    pose proof (Z.div_mod now interval ltac:(lia)) as Hdm.
    assert (Hq : now / interval < q) by nia.
    replace (now - now mod interval) with (interval * (now / interval)) by lia.
    nia.
Qed.

(** The default interval of 15 minutes, started at noon and 7 seconds: the
    first fetch is at 12:15:00. *)
Lemma first_fetch_at_next_boundary_witness :
  exists T,
    hd_error
      (refresh_times
         (startDataCollection Config.default calm Background
            (noon + 7 * Second) 3))
    = Some T
    /\ T mod (15 * Minute) = 0
    /\ noon + 7 * Second < T
    /\ (forall T', noon + 7 * Second < T' -> T' mod (15 * Minute) = 0 -> T <= T').
Proof.
  apply (first_fetch_at_next_boundary Config.default calm (noon + 7 * Second) 3).
  unfold maxIntervalMin. simpl. lia.
Defined.

(** C7, as stated, fails: 153722868 minutes is a positive interval, its
    length in nanoseconds wraps to a negative [Duration], and the first
    fetch is invoked at the start instant itself. *)
Lemma first_fetch_immediate_when_interval_wraps :
  0 < Config.DataCollectionIntervalMin (Config.mkTiming 153722868 2 10 5 10)
  /\ scale 153722868 Minute < 0
  /\ hd_error
       (refresh_times
          (startDataCollection (Config.mkTiming 153722868 2 10 5 10) calm
             Background noon 3))
     = Some noon.
Proof. repeat split. Qed.

(** *** The ticker of the prediction loop *)

Lemma scheduled_runs_app (a b : list Event) :
  scheduled_runs (a ++ b) = scheduled_runs a ++ scheduled_runs b.
Proof.
  induction a as [|ev a IH]; simpl; auto.
  destruct ev as [| |t site ctx r| |]; auto.
  destruct site; simpl; auto. now rewrite IH.
Qed.

Lemma returns_app (a b : list Event) :
  returns (a ++ b) = returns a ++ returns b.
Proof.
  induction a as [|ev a IH]; simpl; auto.
  destruct ev; simpl; auto. now rewrite IH.
Qed.

(** The initial wait makes no run from the ticker loop, and never returns
    from the goroutine. *)
Lemma wait_rounds_events (env : Env) (ctx : Context)
  (maxWait checkInterval : Duration) (start : Time) (fuel : nat) :
  forall now k,
    scheduled_runs
      (snd (wait_rounds env ctx fuel maxWait checkInterval start now k)) = []
    /\ returns
         (snd (wait_rounds env ctx fuel maxWait checkInterval start now k)) = [].
Proof.
  induction fuel as [|fuel IH]; intros now k; simpl; [now split|].
  destruct (maxWait <? Sub now start); [now split|].
  destruct (inference env k) as [d [e|]]; [|now split].
  destruct (select env ctx (now + Z.of_N d)
              (After (now + Z.of_N d) checkInterval)) as [t|t|];
    try (now split).
  specialize (IH t (S k)).
  destruct (wait_rounds env ctx fuel maxWait checkInterval start t (S k))
    as [[[res tend] kend] evs].
  exact IH.
Qed.

(** A ticker stopped no later than its first tick never delivers one. *)
Lemma stopped_early_never_ready (ticker : Ticker) (s : Time) :
  stop_at ticker = Some s -> s <= next ticker -> tick_ready ticker = None.
Proof.
  unfold tick_ready. intros -> Hle.
  destruct (Z.ltb_spec (next ticker) s); [lia | reflexivity].
Qed.

(** With no tick to come the loop makes no run. *)
Lemma prediction_ticks_without_ticks (env : Env) (ctx : Context) (fuel : nat)
  (ticker : Ticker) (now : Time) (k : nat) :
  tick_ready ticker = None ->
  scheduled_runs (prediction_ticks env ctx fuel ticker now k) = [].
Proof.
  intros Hnone. destruct fuel as [|fuel]; simpl; auto.
  rewrite Hnone. unfold select. now destruct (Done ctx).
Qed.

(** C5, on the code: whatever the configuration, the environment, the
    context and the number of rounds, the loop started by
    [StartPredictionService] makes no inference run from its ticker: the
    ticker is stopped when [StartPredictionService] returns, before its
    first tick. *)
Theorem StartPredictionService_never_runs_on_schedule
  (cfg : Config.TimingConfig) (env : Env) (ctx : Context) (now : Time)
  (fuel : nat) :
  scheduled_runs (StartPredictionService cfg env ctx now fuel) = [].
Proof.
  unfold StartPredictionService, NewTicker.
  set (d := scale (Config.PredictionIntervalHours cfg) Hour).
  destruct (Z.leb_spec d 0) as [Hle|Hpos]; [reflexivity|].
  unfold prediction_goroutine, waitAndGenerateInitialPredictions.
  set (maxWait := scale (Config.MLServiceMaxWaitMin cfg) Minute).
  set (checkInterval := scale (Config.MLServiceCheckIntervalSec cfg) Second).
  pose proof (wait_rounds_events env ctx maxWait checkInterval now fuel now 0%nat)
    as [Hw _].
  destruct (wait_rounds env ctx fuel maxWait checkInterval now now 0)
    as [[[res tend] kend] evs].
  cbn [snd] in Hw. destruct res as [err|]; simpl; [|exact Hw].
  rewrite scheduled_runs_app, Hw. simpl.
  apply prediction_ticks_without_ticks.
  apply (stopped_early_never_ready _ now); simpl; [reflexivity | lia].
Qed.

(** The defaults (a run every 2 hours), an inference service that answers
    at once: after the initial run, 1000 rounds of the loop produce
    nothing. *)
Lemma StartPredictionService_default_trace :
  StartPredictionService Config.default calm Background noon 1000
  = [Log noon "Waiting for ML service and generating initial predictions...";
     Inference noon InitialRun Background None;
     Log (noon + Second) "Initial predictions generated successfully after %v";
     Log (noon + Second) "Initial predictions generated successfully at %s";
     Log (noon + Second)
       "Prediction service running - generating predictions every %d hours"].
Proof. reflexivity. Qed.

(** The same goroutine with a ticker that was not stopped does run every
    two hours, as [startDataCollection] does with its own ticker. *)
Lemma prediction_goroutine_with_live_ticker :
  scheduled_runs
    (prediction_goroutine Config.default calm Background
       (mkTicker (2 * Hour) (noon + 2 * Hour) None) noon 3)
  = [noon + 2 * Hour; noon + 4 * Hour; noon + 6 * Hour].
Proof. reflexivity. Qed.

(** *** Shutdown *)

Lemma collection_ticks_Background (env : Env) (fuel : nat) :
  forall ticker now k,
    returns (collection_ticks env Background fuel ticker now k) = [].
Proof.
  induction fuel as [|fuel IH]; intros ticker now k; simpl; auto.
  rewrite select_Background.
  destruct (tick_ready ticker) as [f|]; auto.
  destruct (refresh env k) as [d r]. simpl. apply IH.
Qed.

Lemma prediction_ticks_Background (env : Env) (fuel : nat) :
  forall ticker now k,
    returns (prediction_ticks env Background fuel ticker now k) = [].
Proof.
  induction fuel as [|fuel IH]; intros ticker now k; simpl; auto.
  rewrite select_Background.
  destruct (tick_ready ticker) as [f|]; auto.
  destruct (inference env k) as [d r]. simpl. apply IH.
Qed.

Lemma returns_before (stop : Time) (tr : list Event) :
  returns tr = [] -> returns (before stop tr) = [].
Proof.
  unfold before. induction tr as [|ev tr IH]; simpl; auto.
  destruct ev as [t f|t c r|t s c r|t m|t]; simpl; try discriminate;
    intros H; destruct (t <? stop); simpl; auto.
Qed.

Lemma startDataCollection_Background_returns (cfg : Config.TimingConfig)
  (env : Env) (now : Time) (fuel : nat) :
  returns (startDataCollection cfg env Background now fuel) = [].
Proof.
  unfold startDataCollection, After.
  rewrite select_Background.
  destruct (refresh env 0) as [d0 r0].
  destruct (NewTicker _ _) as [ticker|]; cbn [returns]; auto.
  apply collection_ticks_Background.
Qed.

Lemma StartPredictionService_Background_returns (cfg : Config.TimingConfig)
  (env : Env) (now : Time) (fuel : nat) :
  returns (StartPredictionService cfg env Background now fuel) = [].
Proof.
  unfold StartPredictionService.
  destruct (NewTicker _ _) as [ticker|]; simpl; auto.
  unfold waitAndGenerateInitialPredictions.
  match goal with
  | |- context [wait_rounds ?e ?c ?f ?m ?ci ?s ?n ?k] =>
    pose proof (wait_rounds_events e c m ci s f n k) as [_ Hw];
    destruct (wait_rounds e c f m ci s n k) as [[[res tend] kend] evs]
  end.
  cbn [snd] in Hw. destruct res as [err|]; [|exact Hw].
  rewrite returns_app, Hw. simpl.
  apply prediction_ticks_Background.
Qed.

(** C6, on the code: whenever the shutdown signal arrives, neither loop
    started by [Start] ever takes its [ctx.Done()] branch and returns: both
    were given [context.Background()], whose [Done] is never closed, so
    they go on until the process ends under them. *)
Theorem Start_loops_never_observe_shutdown (cfg : Config.TimingConfig)
  (env : Env) (now signal_at : Time) (fuel : nat) :
  returns (collection (Start cfg env now signal_at fuel)) = []
  /\ returns (prediction (Start cfg env now signal_at fuel)) = [].
Proof.
  pose proof (startDataCollection_Background_returns cfg env now fuel) as Hc.
  pose proof (StartPredictionService_Background_returns cfg env now fuel)
    as Hp.
  unfold Start.
  destruct (NewTicker now (scale (Config.PredictionIntervalHours cfg) Hour)).
  2:{ cbn [collection prediction]. split; [|reflexivity].
      now apply returns_before. }
  destruct (Shutdown env _) as [elapsed err].
  destruct (panic_at _) as [p|];
    [destruct (p <? Z.max now signal_at + elapsed)|];
    cbn [collection prediction]; split;
    try assumption; now apply returns_before.
Qed.

(** The defaults, started at noon and 7 seconds; SIGTERM at 12:14:55, and
    the server needs 8 seconds to drain, within the 10 seconds it is given:
    the process ends at 12:15:03, and at 12:15:00, five seconds after the
    signal, the collection loop has started a fetch. *)
Lemma Start_fetches_after_signal :
  refresh_times
    (collection
       (Start Config.default draining (noon + 7 * Second)
          (noon + 14 * Minute + 55 * Second) 3))
  = [noon + 15 * Minute]
  /\ exit_at
       (Start Config.default draining (noon + 7 * Second)
          (noon + 14 * Minute + 55 * Second) 3)
     = noon + 15 * Minute + 3 * Second
  /\ noon + 14 * Minute + 55 * Second < noon + 15 * Minute.
Proof. repeat split. Qed.

End SchedProps.

(** * Further properties of the code *)

(** ** types.go and station_service.go *)

Module RecordProps.
Import StationSvc StationSvcSpec ExtraSpec.

(** [Station.Validate] returns [nil] exactly for a station with a non-empty
    ID, a non-empty name and a capacity that is not negative. *)
Theorem Station_Validate_nil_iff (s : Station.t) :
  Station.Validate s = None
  <-> (Station.StationID s <> "" /\ Station.Name s <> ""
       /\ 0 <= Station.Capacity s).
Proof.
  unfold Station.Validate.
  destruct (String.eqb_spec (Station.StationID s) "") as [Hid|Hid].
  { split; [discriminate | intros [H _]; contradiction]. }
  destruct (String.eqb_spec (Station.Name s) "") as [Hn|Hn].
  { split; [discriminate | intros (_ & H & _); contradiction]. }
  destruct (Z.ltb_spec (Station.Capacity s) 0) as [Hc|Hc].
  { split; [discriminate | intros (_ & _ & H); lia]. }
  split; auto.
Qed.

Lemma availability_nil_iff (sa : StationAvailability.t) :
  StationAvailability.Validate sa = None
  <-> (StationAvailability.StationID sa <> ""
       /\ 0 <= StationAvailability.NumBikesAvailable sa
       /\ 0 <= StationAvailability.NumDocksAvailable sa).
Proof.
  unfold StationAvailability.Validate.
  destruct (String.eqb_spec (StationAvailability.StationID sa) "") as [Hid|Hid].
  { split; [discriminate | intros [H _]; contradiction]. }
  destruct (Z.ltb_spec (StationAvailability.NumBikesAvailable sa) 0) as [Hb|Hb];
    destruct (Z.ltb_spec (StationAvailability.NumDocksAvailable sa) 0)
      as [Hd|Hd]; cbn [orb];
    (split; [try discriminate; intros _; repeat split; auto; lia
            | try reflexivity; intros (_ & H1 & H2); lia]).
Qed.

(** [StationAvailability.Validate] returns [nil] exactly for a record with a
    non-empty station ID and counts of bikes and docks that are not
    negative; the three flags and the report time are not looked at. *)
Theorem StationAvailability_Validate_nil_iff (sa : StationAvailability.t) :
  StationAvailability.Validate sa = None
  <-> (StationAvailability.StationID sa <> ""
       /\ 0 <= StationAvailability.NumBikesAvailable sa
       /\ 0 <= StationAvailability.NumDocksAvailable sa).
Proof. exact (availability_nil_iff sa). Qed.

(** A cycle whose fetch and upsert succeeded hands [InsertAvailabilities]
    one record per fetched status, in order, with the station ID, the two
    counts, the three flags and the report time unchanged; the records pass
    [StationAvailability.Validate] exactly when every fetched status has a
    non-empty ID and counts that are not negative. *)
Theorem RefreshStationData_inserts_feed_verbatim {W : Type}
  (s : StationService W) (w w1 w2 : W) (stations : list DivvyStation.t)
  (statuses : list DivvyStationStatus.t) :
  FetchStationData (divvyClient s) w = ((stations, statuses, None), w1) ->
  UpsertStations (database s) (map convertToStation stations) w1 = (None, w2) ->
  exists availabilities,
    insert_calls (trace_of (RefreshStationData s (w, []))) = [availabilities]
    /\ Forall2
         (fun d a =>
            StationAvailability.StationID a = DivvyStationStatus.StationID d
            /\ StationAvailability.NumBikesAvailable a
               = DivvyStationStatus.NumBikesAvailable d
            /\ StationAvailability.NumDocksAvailable a
               = DivvyStationStatus.NumDocksAvailable d
            /\ StationAvailability.IsInstalled a
               = DivvyStationStatus.IsInstalled d
            /\ StationAvailability.IsRenting a = DivvyStationStatus.IsRenting d
            /\ StationAvailability.IsReturning a
               = DivvyStationStatus.IsReturning d
            /\ StationAvailability.LastReported a
               = DivvyStationStatus.LastReported d)
         statuses availabilities
    /\ (Forall (fun a => StationAvailability.Validate a = None) availabilities
        <-> Forall feed_status_ok statuses).
Proof.
  intros Hfetch Hup. exists (map convertToAvailability statuses).
  split; [|split].
  - rewrite (StationSvcProps.RefreshStationData_fetched s w w1 stations statuses
               Hfetch).
    cbv zeta. rewrite Hup.
    destruct (InsertAvailabilities (database s)
                (map convertToAvailability statuses) w2) as [[e|] w3];
      reflexivity.
  - clear. induction statuses as [|d rest IH]; simpl; constructor; auto.
    repeat split.
  - rewrite Forall_map. split; intros H; eapply Forall_impl; try exact H;
      intros d Hd; apply availability_nil_iff in Hd || apply availability_nil_iff;
      exact Hd.
Qed.

Lemma RefreshStationData_inserts_feed_verbatim_witness :
  exists availabilities,
    insert_calls
      (trace_of
         (RefreshStationData
            (NewStationService unit (Mock.MockDatabase None None None ([], None))
               (Mock.MockDivvyClient [Mock.station123] [Mock.status123] None))
            (tt, [])))
    = [availabilities]
    /\ Forall2
         (fun d a =>
            StationAvailability.StationID a = DivvyStationStatus.StationID d
            /\ StationAvailability.NumBikesAvailable a
               = DivvyStationStatus.NumBikesAvailable d
            /\ StationAvailability.NumDocksAvailable a
               = DivvyStationStatus.NumDocksAvailable d
            /\ StationAvailability.IsInstalled a
               = DivvyStationStatus.IsInstalled d
            /\ StationAvailability.IsRenting a = DivvyStationStatus.IsRenting d
            /\ StationAvailability.IsReturning a
               = DivvyStationStatus.IsReturning d
            /\ StationAvailability.LastReported a
               = DivvyStationStatus.LastReported d)
         [Mock.status123] availabilities
    /\ (Forall (fun a => StationAvailability.Validate a = None) availabilities
        <-> Forall feed_status_ok [Mock.status123]).
Proof.
  exact (RefreshStationData_inserts_feed_verbatim
           (NewStationService unit (Mock.MockDatabase None None None ([], None))
              (Mock.MockDivvyClient [Mock.station123] [Mock.status123] None))
           tt tt tt [Mock.station123] [Mock.status123] eq_refl eq_refl).
Defined.

Lemma refresh_nil_iff {W : Type} (s : StationService W) (w : W) :
  (fst (RefreshStationData s (w, [])) = None
   <-> exists stations statuses w1 w2 w3,
       FetchStationData (divvyClient s) w = ((stations, statuses, None), w1)
       /\ UpsertStations (database s) (map convertToStation stations) w1
          = (None, w2)
       /\ InsertAvailabilities (database s)
            (map convertToAvailability statuses) w2 = (None, w3))
  /\ (fst (RefreshStationData s (w, [])) = None ->
      exists stations statuses,
        trace_of (RefreshStationData s (w, []))
        = [CallFetchStationData;
           CallUpsertStations (map convertToStation stations);
           CallInsertAvailabilities (map convertToAvailability statuses)]).
Proof.
  destruct (FetchStationData (divvyClient s) w)
    as [[[stations statuses] [e|]] w1] eqn:Hfetch.
  { assert (Hr : fst (RefreshStationData s (w, [])) = Some e)
      by (unfold RefreshStationData; now rewrite Hfetch).
    rewrite Hr. split; [split|]; try discriminate.
    intros (? & ? & ? & ? & ? & H & _). discriminate. }
  rewrite (StationSvcProps.RefreshStationData_fetched s w w1 stations statuses
             Hfetch).
  cbv zeta.
  destruct (UpsertStations (database s) (map convertToStation stations) w1)
    as [[e|] w2] eqn:Hup.
  { split; [split|]; try discriminate.
    intros (st & ss & x1 & x2 & x3 & H1 & H2 & _).
    inversion H1; subst. rewrite Hup in H2. discriminate. }
  destruct (InsertAvailabilities (database s)
              (map convertToAvailability statuses) w2) as [[e|] w3] eqn:Hins.
  { split; [split|]; try discriminate.
    intros (st & ss & x1 & x2 & x3 & H1 & H2 & H3).
    inversion H1; subst. rewrite Hup in H2. inversion H2; subst.
    rewrite Hins in H3. discriminate. }
  split; [split|].
  - intros _. exists stations, statuses, w1, w2, w3. auto.
  - reflexivity.
  - intros _. exists stations, statuses. reflexivity.
Qed.

(** [RefreshStationData] returns [nil] exactly when the fetch, the upsert of
    the converted stations and the insert of the converted statuses all
    return [nil], each acting on the world the previous one left; the calls
    made are then those three, in that order. *)
Theorem RefreshStationData_nil_iff {W : Type} (s : StationService W) (w : W) :
  (fst (RefreshStationData s (w, [])) = None
   <-> exists stations statuses w1 w2 w3,
       FetchStationData (divvyClient s) w = ((stations, statuses, None), w1)
       /\ UpsertStations (database s) (map convertToStation stations) w1
          = (None, w2)
       /\ InsertAvailabilities (database s)
            (map convertToAvailability statuses) w2 = (None, w3))
  /\ (fst (RefreshStationData s (w, [])) = None ->
      exists stations statuses,
        trace_of (RefreshStationData s (w, []))
        = [CallFetchStationData;
           CallUpsertStations (map convertToStation stations);
           CallInsertAvailabilities (map convertToAvailability statuses)]).
Proof. exact (refresh_nil_iff s w). Qed.

End RecordProps.

(** ** database.go: the transaction of a bulk write *)

Module TxProps.
Import DB ExtraSpec.

Lemma fallible_ok (op : SqlOp) (d : Database) (n : nat) :
  succeed (S n) d ->
  fallible op d = (None, mkDatabase (ops d ++ [op]) (skipn 1 (script d)))
  /\ succeed n (mkDatabase (ops d ++ [op]) (skipn 1 (script d))).
Proof.
  unfold succeed, fallible. destruct (script d) as [|o rest]; simpl.
  - intros _. split; [reflexivity|]. rewrite firstn_nil. constructor.
  - intros H. inversion H; subst. split; [reflexivity | assumption].
Qed.

Lemma fallible_fails (op : SqlOp) (d : Database) (e : error)
  (rest : list (option error)) :
  script d = Some e :: rest ->
  fallible op d = (Some e, mkDatabase (ops d ++ [op]) rest).
Proof. unfold fallible. now intros ->. Qed.

Lemma fallible_next (op : SqlOp) (d : Database) (sc : list (option error)) :
  script d = None :: sc ->
  fallible op d = (None, mkDatabase (ops d ++ [op]) sc).
Proof. unfold fallible. now intros ->. Qed.

(** Either the next [n] outcomes all succeed, or there is a first one that
    fails. *)
Lemma succeed_or_first_failure (n : nat) (sc : list (option error)) :
  Forall (fun o => o = None) (firstn n sc)
  \/ exists i e rest,
      (i < n)%nat /\ sc = repeat None i ++ Some e :: rest.
Proof.
  revert sc; induction n as [|n IH]; intros sc.
  - left. constructor.
  - destruct sc as [|[e|] rest].
    + left. constructor.
    + right. exists 0%nat, e, rest. split; [lia | reflexivity].
    + destruct (IH rest) as [H|(i & e & rest' & Hi & ->)].
      * left. simpl. constructor; auto.
      * right. exists (S i), e, rest'. split; [lia | reflexivity].
Qed.

Lemma first_failure_not_succeed (n i : nat) (e : error)
  (rest : list (option error)) :
  (i < n)%nat ->
  ~ Forall (fun o => o = None) (firstn n (repeat None i ++ Some e :: rest)).
Proof.
  revert n; induction i as [|i IH]; intros [|n] Hi H; try lia; simpl in H.
  - inversion H; discriminate.
  - inversion H; subst. apply (IH n); [lia | assumption].
Qed.

Lemma succeed_prefix (n : nat) (l : list (option error)) (d : Database) :
  script d = repeat None n ++ l -> succeed n d.
Proof.
  unfold succeed. intros ->.
  rewrite firstn_app, firstn_all2 by (rewrite repeat_length; lia).
  rewrite repeat_length, Nat.sub_diag, firstn_0, app_nil_r.
  apply Forall_forall. intros x Hin. now apply repeat_spec in Hin.
Qed.

Section Rows.
Context {A : Type} (args_of : A -> list SqlArg) (station_of : A -> string)
  (format : string).

(** All the rows are executed when the store accepts them. *)
Lemma exec_each_ok (rows : list A) :
  forall d,
    succeed (List.length rows) d ->
    exec_each args_of station_of format rows d
    = (None,
       mkDatabase (ops d ++ map (fun r => OpExecContext (args_of r)) rows)
         (skipn (List.length rows) (script d))).
Proof.
  induction rows as [|row rest IH]; intros d Hs; simpl.
  - rewrite app_nil_r. now destruct d.
  - destruct (fallible_ok (OpExecContext (args_of row)) d _ Hs) as [-> Hs'].
    rewrite IH by exact Hs'. cbn [ops script].
    rewrite <- app_assoc. simpl. f_equal. f_equal.
    destruct (script d) as [|o sc]; simpl.
    + now rewrite skipn_nil.
    + reflexivity.
Qed.

(** The loop stops at the first row the store refuses. *)
Lemma exec_each_fails (rows : list A) :
  forall d i row e sc,
    script d = repeat None i ++ Some e :: sc ->
    nth_error rows i = Some row ->
    exec_each args_of station_of format rows d
    = (Some (fmt_Errorf_w format [arg_str (station_of row)] e),
       mkDatabase
         (ops d ++ map (fun r => OpExecContext (args_of r)) (firstn (S i) rows))
         sc).
Proof.
  induction rows as [|r rest IH]; intros d [|i] row e sc Hsc Hnth;
    simpl in Hnth; try discriminate.
  - inversion Hnth; subst. simpl.
    rewrite (fallible_fails _ d e sc Hsc). reflexivity.
  - simpl. simpl in Hsc.
    rewrite (fallible_next _ d _ Hsc).
    rewrite (IH (mkDatabase _ _) i row e sc eq_refl Hnth). cbn [ops].
    now rewrite <- app_assoc.
Qed.

Variable query : string.

Lemma succeed_split (n m : nat) (d : Database) :
  succeed (n + m) d ->
  succeed n d
  /\ Forall (fun o => o = None) (firstn m (skipn n (script d))).
Proof.
  unfold succeed. generalize (script d) as sc.
  induction n as [|n IH]; intros sc H; simpl in *.
  - split; [constructor | assumption].
  - destruct sc as [|o sc]; simpl.
    + split; [constructor|]. rewrite firstn_nil. constructor.
    + inversion H; subst. destruct (IH sc) as [H1 H2]; auto.
Qed.

Lemma prepared_batch_ok (rows : list A) (d : Database) :
  succeed (List.length rows + 3) d ->
  prepared_batch query args_of station_of format rows d
  = (None,
     mkDatabase (ops d ++ full_batch query args_of rows)
       (skipn (List.length rows + 3) (script d))).
Proof.
  intros Hs. unfold prepared_batch, full_batch.
  replace (List.length rows + 3)%nat with (S (S (List.length rows + 1)))
    in * by lia.
  destruct (fallible_ok OpBeginTx d _ Hs) as [-> Hs1].
  destruct (fallible_ok (OpPrepareContext query) _ _ Hs1) as [-> Hs2].
  destruct (succeed_split _ _ _ Hs2) as [Hs3 Hs4].
  rewrite exec_each_ok by exact Hs3. cbn [ops script] in *.
  match goal with
  | |- context [fallible OpCommit ?x] =>
    destruct (fallible_ok OpCommit x 0) as [-> _]
  end.
  { unfold succeed. cbn [script]. exact Hs4. }
  unfold dropped. cbn [ops script]. f_equal. f_equal.
  - rewrite <- !app_assoc. reflexivity.
  - rewrite !skipn_skipn. f_equal. lia.
Qed.

Lemma prepared_batch_error (rows : list A) (d : Database) (i : nat)
  (e : error) (sc : list (option error)) :
  (i < List.length rows + 3)%nat ->
  script d = repeat None i ++ Some e :: sc ->
  exists e', fst (prepared_batch query args_of station_of format rows d)
             = Some e'.
Proof.
  intros Hi Hsc. unfold prepared_batch.
  destruct i as [|i]; simpl in Hsc.
  { rewrite (fallible_fails _ d e sc Hsc). simpl. eauto. }
  rewrite (fallible_next _ d _ Hsc).
  destruct i as [|i].
  { erewrite fallible_fails by reflexivity. simpl. eauto. }
  erewrite fallible_next by reflexivity.
  destruct (Nat.lt_ge_cases i (List.length rows)) as [Hlt|Hge].
  - destruct (nth_error rows i) as [row|] eqn:Hnth.
    2:{ apply nth_error_None in Hnth. lia. }
    erewrite exec_each_fails by (try reflexivity; exact Hnth). simpl. eauto.
  - assert (i = List.length rows) by lia. subst i.
    rewrite exec_each_ok.
    2:{ unfold succeed. cbn [script]. rewrite firstn_app, firstn_all2
          by (rewrite repeat_length; lia).
        rewrite repeat_length, Nat.sub_diag. simpl. rewrite app_nil_r.
        clear. induction (List.length rows); simpl; constructor; auto. }
    cbn [script].
    rewrite skipn_app, skipn_all2 by (rewrite repeat_length; lia).
    rewrite repeat_length, Nat.sub_diag. cbn [skipn app].
    erewrite fallible_fails by reflexivity. simpl. eauto.
Qed.

(** A batch returns [nil] exactly when the store accepts [BeginTx],
    [PrepareContext], every [ExecContext] and [Commit]. *)
Lemma prepared_batch_nil_iff (rows : list A) (d : Database) :
  fst (prepared_batch query args_of station_of format rows d) = None
  <-> succeed (List.length rows + 3) d.
Proof.
  split.
  - intros Hnil.
    destruct (succeed_or_first_failure (List.length rows + 3) (script d))
      as [H|(i & e & sc & Hi & Hsc)]; [exact H|].
    destruct (prepared_batch_error rows d i e sc Hi Hsc) as [e' He'].
    congruence.
  - intros Hs. now rewrite prepared_batch_ok.
Qed.

End Rows.

(** [InsertPredictions] on a slice that is not empty, when the store accepts
    everything. *)
Lemma InsertPredictions_ok (pr : Prediction.t) (rest : list Prediction.t)
  (d : Database) :
  succeed (List.length (pr :: rest) + 3) d ->
  InsertPredictions (pr :: rest) d
  = (None,
     mkDatabase (ops d ++ full_prediction_batch (pr :: rest))
       (skipn (List.length (pr :: rest) + 3) (script d))).
Proof.
  intros Hs. unfold InsertPredictions, withTransaction, full_prediction_batch.
  rewrite len_cons_nonzero.
  set (rows := pr :: rest) in *.
  replace (List.length rows + 3)%nat with (S (S (List.length rows + 1)))
    in * by lia.
  destruct (fallible_ok OpBeginTx d _ Hs) as [-> Hs1].
  destruct (fallible_ok (OpPrepareContext queryInsertPrediction) _ _ Hs1)
    as [-> Hs2].
  destruct (succeed_split _ _ _ Hs2) as [Hs3 Hs4].
  rewrite exec_each_ok by exact Hs3. cbn [ops script] in *.
  unfold dropped. cbn [ops script].
  match goal with
  | |- context [fallible OpCommit ?x] =>
    destruct (fallible_ok OpCommit x 0) as [-> _]
  end.
  { unfold succeed. cbn [script]. exact Hs4. }
  cbn [ops script]. f_equal. f_equal.
  - rewrite <- !app_assoc. reflexivity.
  - rewrite !skipn_skipn. f_equal. lia.
Qed.

Lemma InsertPredictions_error (pr : Prediction.t) (rest : list Prediction.t)
  (d : Database) (i : nat) (e : error) (sc : list (option error)) :
  (i < List.length (pr :: rest) + 3)%nat ->
  script d = repeat None i ++ Some e :: sc ->
  exists e', fst (InsertPredictions (pr :: rest) d) = Some e'.
Proof.
  intros Hi Hsc. unfold InsertPredictions, withTransaction.
  rewrite len_cons_nonzero.
  set (rows := pr :: rest) in *.
  destruct i as [|i]; simpl in Hsc.
  { rewrite (fallible_fails _ d e sc Hsc). simpl. eauto. }
  rewrite (fallible_next _ d _ Hsc).
  destruct i as [|i].
  { erewrite fallible_fails by reflexivity. simpl. eauto. }
  erewrite fallible_next by reflexivity.
  destruct (Nat.lt_ge_cases i (List.length rows)) as [Hlt|Hge].
  - destruct (nth_error rows i) as [row|] eqn:Hnth.
    2:{ apply nth_error_None in Hnth. lia. }
    erewrite exec_each_fails by (try reflexivity; exact Hnth). simpl. eauto.
  - assert (i = List.length rows) by lia. subst i.
    rewrite exec_each_ok.
    2:{ apply (succeed_prefix _ (Some e :: sc)). reflexivity. }
    cbn [script].
    rewrite skipn_app, skipn_all2 by (rewrite repeat_length; lia).
    rewrite repeat_length, Nat.sub_diag. cbn [skipn app].
    unfold dropped. cbn [ops script].
    erewrite fallible_fails by reflexivity. simpl. eauto.
Qed.

Lemma InsertPredictions_nil_iff (pr : Prediction.t) (rest : list Prediction.t)
  (d : Database) :
  fst (InsertPredictions (pr :: rest) d) = None
  <-> succeed (List.length (pr :: rest) + 3) d.
Proof.
  split.
  - intros Hnil.
    destruct (succeed_or_first_failure (List.length (pr :: rest) + 3)
                (script d)) as [H|(i & e & sc & Hi & Hsc)]; [exact H|].
    destruct (InsertPredictions_error pr rest d i e sc Hi Hsc) as [e' He'].
    congruence.
  - intros Hs. now rewrite InsertPredictions_ok.
Qed.

(** A bulk write of a slice that is not empty returns [nil] exactly when the
    store accepts [BeginTx], [PrepareContext], the [ExecContext] of every
    row and [Commit]: one refusal among them fails the whole write. *)
Theorem bulk_writes_all_or_nothing (d : Database) :
  (forall stations,
      stations <> [] ->
      fst (UpsertStations stations d) = None
      <-> succeed (List.length stations + 3) d)
  /\ (forall availabilities,
         availabilities <> [] ->
         fst (InsertAvailabilities availabilities d) = None
         <-> succeed (List.length availabilities + 3) d)
  /\ (forall predictions,
         predictions <> [] ->
         fst (InsertPredictions predictions d) = None
         <-> succeed (List.length predictions + 3) d).
Proof.
  split; [|split].
  - intros [|st rest] Hne; [contradiction|].
    unfold UpsertStations. rewrite len_cons_nonzero.
    apply prepared_batch_nil_iff.
  - intros [|av rest] Hne; [contradiction|].
    unfold InsertAvailabilities. rewrite len_cons_nonzero.
    apply prepared_batch_nil_iff.
  - intros [|pr rest] Hne; [contradiction|].
    apply InsertPredictions_nil_iff.
Qed.

(** A bulk write that the store accepts sends, in this order: [BeginTx], the
    [PrepareContext] of its statement, one [ExecContext] per row with the
    row's fields, in slice order, and [Commit]; [UpsertStations] and
    [InsertAvailabilities] close the statement after the commit,
    [InsertPredictions] before it, and the deferred [Rollback] comes last. *)
Theorem bulk_writes_accepted_trace (d : Database) :
  (forall stations,
      stations <> [] ->
      succeed (List.length stations + 3) d ->
      ops (snd (UpsertStations stations d))
      = ops d ++ [OpBeginTx; OpPrepareContext queryUpsertStation]
        ++ map (fun s => OpExecContext (station_args s)) stations
        ++ [OpCommit; OpStmtClose; OpRollback])
  /\ (forall availabilities,
         availabilities <> [] ->
         succeed (List.length availabilities + 3) d ->
         ops (snd (InsertAvailabilities availabilities d))
         = ops d ++ [OpBeginTx; OpPrepareContext queryInsertAvailability]
           ++ map (fun a => OpExecContext (availability_args a)) availabilities
           ++ [OpCommit; OpStmtClose; OpRollback])
  /\ (forall predictions,
         predictions <> [] ->
         succeed (List.length predictions + 3) d ->
         ops (snd (InsertPredictions predictions d))
         = ops d ++ [OpBeginTx; OpPrepareContext queryInsertPrediction]
           ++ map (fun p => OpExecContext (prediction_args p)) predictions
           ++ [OpStmtClose; OpCommit; OpRollback]).
Proof.
  split; [|split].
  - intros [|st rest] Hne Hs; [contradiction|].
    unfold UpsertStations. rewrite len_cons_nonzero.
    now rewrite prepared_batch_ok.
  - intros [|av rest] Hne Hs; [contradiction|].
    unfold InsertAvailabilities. rewrite len_cons_nonzero.
    now rewrite prepared_batch_ok.
  - intros [|pr rest] Hne Hs; [contradiction|].
    now rewrite InsertPredictions_ok.
Qed.

(** When the store refuses the [ExecContext] of the station at index [i],
    having accepted everything before, [UpsertStations] returns that error
    wrapped with the station's ID; the stations after [i] are not executed,
    no [Commit] is sent, and the statement is closed and the transaction
    rolled back. *)
Theorem UpsertStations_stops_at_refused_station (stations : list Station.t)
  (d : Database) (i : nat) (station : Station.t) (e : error)
  (sc : list (option error)) :
  nth_error stations i = Some station ->
  script d = repeat None (2 + i) ++ Some e :: sc ->
  UpsertStations stations d
  = (Some (fmt_Errorf_w "exec station %s: %w"
             [arg_str (Station.StationID station)] e),
     mkDatabase
       (ops d ++ [OpBeginTx; OpPrepareContext queryUpsertStation]
        ++ map (fun s => OpExecContext (station_args s)) (firstn (S i) stations)
        ++ [OpStmtClose; OpRollback])
       sc).
Proof.
  intros Hnth Hsc. unfold UpsertStations.
  destruct stations as [|st rest]; [destruct i; discriminate|].
  rewrite len_cons_nonzero. unfold prepared_batch.
  simpl in Hsc.
  rewrite (fallible_next _ d _ Hsc).
  erewrite fallible_next by reflexivity.
  erewrite exec_each_fails by (try reflexivity; exact Hnth).
  unfold dropped. cbn [ops script]. f_equal. f_equal.
  rewrite <- !app_assoc. reflexivity.
Qed.

(** Three stations, the store refusing the second. *)
Lemma UpsertStations_stops_at_refused_station_witness :
  UpsertStations
    [Station.mk "a" "A" 0 0 1 0 0; Station.mk "b" "B" 0 0 2 0 0;
     Station.mk "c" "C" 0 0 3 0 0]
    (mkDatabase [] [None; None; None; Some Mock.AnError])
  = (Some (fmt_Errorf_w "exec station %s: %w" [arg_str "b"] Mock.AnError),
     mkDatabase
       ([] ++ [OpBeginTx; OpPrepareContext queryUpsertStation]
        ++ map (fun s => OpExecContext (station_args s))
             (firstn 2
                [Station.mk "a" "A" 0 0 1 0 0; Station.mk "b" "B" 0 0 2 0 0;
                 Station.mk "c" "C" 0 0 3 0 0])
        ++ [OpStmtClose; OpRollback])
       []).
Proof.
  exact (UpsertStations_stops_at_refused_station
           [Station.mk "a" "A" 0 0 1 0 0; Station.mk "b" "B" 0 0 2 0 0;
            Station.mk "c" "C" 0 0 3 0 0]
           (mkDatabase [] [None; None; None; Some Mock.AnError])
           1 (Station.mk "b" "B" 0 0 2 0 0) Mock.AnError [] eq_refl eq_refl).
Defined.

End TxProps.

(** ** The prediction gateway and the orchestrator, together *)

Module GatewayProps.
Import ML MLSpec ConvertSpec StationSvcSpec ExtraSpec.

Lemma GetPredictions_batch_xor_error_full
  (json_Decode : string -> PredictionResponse.t + error) (r : HTTPResult) :
  ((exists e, GetPredictions json_Decode r = (None, Some e))
   \/ (exists p, GetPredictions json_Decode r = (Some p, None)))
  /\ (forall p,
         GetPredictions json_Decode r = (Some p, None)
         <-> exists body,
             r = HTTPResponse 200 body /\ json_Decode body = inl p
             /\ PredictionResponse.Validate p = None)
  /\ (forall p e, GetPredictions json_Decode r <> (Some p, Some e))
  /\ GetPredictions json_Decode r <> (None, None).
Proof.
  unfold GetPredictions, StatusOK.
  destruct r as [e|e|code body].
  - repeat split; try (left; eauto); try discriminate.
    intros (body & H & _); discriminate.
  - repeat split; try (left; eauto); try discriminate.
    intros (body & H & _); discriminate.
  - destruct (Z.eqb_spec code 200) as [->|Hne]; cbn [negb].
    2:{ repeat split; try (left; eauto); try discriminate.
        intros (b & H & _). inversion H. contradiction. }
    destruct (json_Decode body) as [q|e] eqn:Hdec.
    2:{ repeat split; try (left; eauto); try discriminate.
        intros (b & H & Hd & _). inversion H; subst. congruence. }
    destruct (PredictionResponse.Validate q) as [e|] eqn:Hv.
    { repeat split; try (left; eauto); try discriminate.
      intros (b & H & Hd & Hv'). inversion H; subst.
      rewrite Hdec in Hd. inversion Hd; subst. congruence. }
    repeat split; try (right; eauto); try discriminate.
    + intros H. inversion H; subst. exists body. auto.
    + intros (b & H & Hd & _). inversion H; subst.
      rewrite Hdec in Hd. now inversion Hd.
Qed.

(** Whatever the HTTP round trip comes to, [GetPredictions] returns either a
    batch and no error or an error and no batch, never both and never
    neither; it returns a batch exactly when the status is 200, the body
    decodes and the decoded response passes [Validate], and the batch is
    then the decoded response. *)
Theorem GetPredictions_batch_xor_error
  (json_Decode : string -> PredictionResponse.t + error) (r : HTTPResult) :
  ((exists e, GetPredictions json_Decode r = (None, Some e))
   \/ (exists p, GetPredictions json_Decode r = (Some p, None)))
  /\ (forall p,
         GetPredictions json_Decode r = (Some p, None)
         <-> exists body,
             r = HTTPResponse 200 body /\ json_Decode body = inl p
             /\ PredictionResponse.Validate p = None)
  /\ (forall p e, GetPredictions json_Decode r <> (Some p, Some e))
  /\ GetPredictions json_Decode r <> (None, None).
Proof. exact (GetPredictions_batch_xor_error_full json_Decode r). Qed.

Lemma GetPredictions_batch_xor_error_aux
  (json_Decode : string -> PredictionResponse.t + error) (r : HTTPResult) :
  GetPredictions json_Decode r <> (None, None).
Proof.
  unfold GetPredictions. destruct r as [e|e|code body]; try discriminate.
  destruct (negb (code =? StatusOK)); [discriminate|].
  destruct (json_Decode body) as [q|e]; [|discriminate].
  destruct (PredictionResponse.Validate q); discriminate.
Qed.

Lemma validate_each_first (preds : list RawPrediction.t) :
  forall (j : Z) (i : nat) (x : RawPrediction.t),
    nth_error preds i = Some x ->
    Forall element_ok (firstn i preds) ->
    ~ element_ok x ->
    PredictionResponse.validate_each j preds
    = Some (if String.eqb (RawPrediction.StationID x) "" then
              fmt_Errorf "prediction %d missing station ID"
                [arg_int (j + Z.of_nat i)]
            else
              fmt_Errorf "prediction %d missing prediction time"
                [arg_int (j + Z.of_nat i)]).
Proof.
  induction preds as [|y rest IH]; intros j [|i] x Hnth Hok Hbad;
    simpl in Hnth; try discriminate.
  - inversion Hnth; subst. simpl. rewrite Z.add_0_r.
    destruct (String.eqb_spec (RawPrediction.StationID x) "") as [Hid|Hid];
      [reflexivity|].
    destruct (String.eqb_spec (RawPrediction.PredictionTime x) "") as [Ht|Ht];
      [reflexivity|].
    exfalso. apply Hbad. now split.
  - simpl in Hok. inversion Hok as [|? ? [Hid Ht] Hrest]; subst. simpl.
    destruct (String.eqb_spec (RawPrediction.StationID y) "");
      [contradiction|].
    destruct (String.eqb_spec (RawPrediction.PredictionTime y) "");
      [contradiction|].
    rewrite (IH (j + 1) i x Hnth Hrest Hbad).
    replace (j + 1 + Z.of_nat i) with (j + Z.of_nat (S i)) by lia.
    reflexivity.
Qed.

(** For a response whose count equals the length of its list, [Validate]
    reports the first element that lacks a station ID or a prediction time,
    by its index, and reports the missing station ID when the element lacks
    both. *)
Theorem Validate_reports_first_offender (p : PredictionResponse.t) (i : nat)
  (x : RawPrediction.t) :
  PredictionResponse.Count p
  = Z.of_nat (List.length (PredictionResponse.Predictions p)) ->
  nth_error (PredictionResponse.Predictions p) i = Some x ->
  Forall element_ok (firstn i (PredictionResponse.Predictions p)) ->
  ~ element_ok x ->
  PredictionResponse.Validate p
  = Some (if String.eqb (RawPrediction.StationID x) "" then
            fmt_Errorf "prediction %d missing station ID"
              [arg_int (Z.of_nat i)]
          else
            fmt_Errorf "prediction %d missing prediction time"
              [arg_int (Z.of_nat i)]).
Proof.
  intros Hc Hnth Hok Hbad. unfold PredictionResponse.Validate.
  destruct (PredictionResponse.Predictions p) as [|y rest] eqn:Hp.
  { destruct i; discriminate. }
  rewrite len_cons_nonzero. unfold len. rewrite Hc, Z.eqb_refl. cbn [negb].
  exact (validate_each_first (y :: rest) 0 i x Hnth Hok Hbad).
Qed.

(** Two elements, the second without a prediction time. *)
Lemma Validate_reports_first_offender_witness :
  PredictionResponse.Validate
    (PredictionResponse.mk [raw123; RawPrediction.mk "456" 2 "" 6 "red"] 2 "")
  = Some (fmt_Errorf "prediction %d missing prediction time" [arg_int 1]).
Proof.
  apply (Validate_reports_first_offender
           (PredictionResponse.mk
              [raw123; RawPrediction.mk "456" 2 "" 6 "red"] 2 "")
           1 (RawPrediction.mk "456" 2 "" 6 "red")).
  - reflexivity.
  - reflexivity.
  - repeat constructor; discriminate.
  - intros [_ H]. now apply H.
Defined.

Section WithRun.
Context {W : Type}.
Variable json_Decode : string -> PredictionResponse.t + error.
Variable time_Parse : string -> string -> Time + error.
Variable roundTrip : W -> HTTPResult * W.
Variable db : DatabaseInterface W.

Lemma run_unfold (w : W) (c : Clock) :
  RunInferenceWithResults time_Parse W (service json_Decode roundTrip db)
    (w, c, [])
  = match GetPredictions json_Decode (fst (roundTrip w)) with
    | (_, Some e) =>
      (Returned (Some (fmt_Errorf_w "get predictions: %w" [] e)),
       (snd (roundTrip w), c, []))
    | (None, None) =>
      (Panicked "nil pointer dereference", (snd (roundTrip w), c, []))
    | (Some resp, None) =>
      let predictions :=
        fst (fst (convertPredictions time_Parse
                    (PredictionResponse.Predictions resp) c)) in
      let c1 := snd (convertPredictions time_Parse
                       (PredictionResponse.Predictions resp) c) in
      match InsertPredictions db predictions (snd (roundTrip w)) with
      | (Some e, w2) =>
        (Returned (Some (fmt_Errorf_w "store predictions: %w" [] e)),
         (w2, c1, [CallInsertPredictions predictions]))
      | (None, w2) =>
        (Returned None, (w2, c1, [CallInsertPredictions predictions]))
      end
    end.
Proof.
  unfold RunInferenceWithResults, service. cbn [mlService database].
  unfold Gateway.MLService. cbn [GetPredictions_].
  destruct (roundTrip w) as [r w1]. cbn [fst snd].
  destruct (GetPredictions json_Decode r) as [[resp|] [e|]]; try reflexivity.
  rewrite ConvertProps.convertPredictions_records. cbn [fst snd].
  destruct (InsertPredictions db _ w1) as [[e|] w2]; reflexivity.
Qed.

End WithRun.

(** With [MLService] as its gateway the orchestrator never panics, and
    whenever the gateway returns an error (a failed request, a status other
    than 200, a body that does not decode, a response that fails [Validate])
    the run returns that error wrapped, makes no persistence call and does
    not read the clock. *)
Theorem RunInference_gateway_error_persists_nothing {W : Type}
  (json_Decode : string -> PredictionResponse.t + error)
  (time_Parse : string -> string -> Time + error)
  (roundTrip : W -> HTTPResult * W) (db : DatabaseInterface W) (w : W)
  (c : Clock) :
  let run :=
    RunInferenceWithResults time_Parse W
      (service json_Decode roundTrip db) (w, c, []) in
  (forall msg, fst run <> Panicked msg)
  /\ (forall e,
         GetPredictions json_Decode (fst (roundTrip w)) = (None, Some e) ->
         run = (Returned (Some (fmt_Errorf_w "get predictions: %w" [] e)),
                (snd (roundTrip w), c, []))).
Proof.
  cbv zeta. rewrite run_unfold.
  pose proof (GetPredictions_batch_xor_error_aux json_Decode
                (fst (roundTrip w))) as Hx.
  destruct (GetPredictions json_Decode (fst (roundTrip w)))
    as [[resp|] [e|]].
  - split; [discriminate | intros e' He'; discriminate].
  - split; [|intros e' He'; discriminate].
    intros msg. cbv zeta.
    destruct (InsertPredictions db _ (snd (roundTrip w))) as [[e|] w2];
      discriminate.
  - split; [discriminate|].
    intros e' He'. inversion He'; subst. reflexivity.
  - exfalso. now apply Hx.
Qed.

Lemma records_station_ids (time_Parse : string -> string -> Time + error)
  (rd : nat -> Time) (raws : list RawPrediction.t) :
  forall n,
    map Prediction.StationID (records time_Parse rd n raws)
    = map RawPrediction.StationID raws.
Proof.
  induction raws as [|x rest IH]; intros n; simpl; auto.
  destruct (time_Parse _ _); simpl; now rewrite IH.
Qed.

(** When the service answers 200 with a body that decodes to a response
    passing [Validate], the run makes exactly one [InsertPredictions] call,
    with as many records as the response declares in [count] (at least one),
    carrying the station IDs of the response in order; and the run returns
    [nil] exactly when that call does. *)
Theorem RunInference_persists_valid_batch {W : Type}
  (json_Decode : string -> PredictionResponse.t + error)
  (time_Parse : string -> string -> Time + error)
  (roundTrip : W -> HTTPResult * W) (db : DatabaseInterface W) (w : W)
  (c : Clock) (body : string) (p : PredictionResponse.t) :
  fst (roundTrip w) = HTTPResponse 200 body ->
  json_Decode body = inl p ->
  PredictionResponse.Validate p = None ->
  let run :=
    RunInferenceWithResults time_Parse W
      (service json_Decode roundTrip db) (w, c, []) in
  exists predictions,
    prediction_calls (snd (snd run)) = [predictions]
    /\ Z.of_nat (List.length predictions) = PredictionResponse.Count p
    /\ 0 < PredictionResponse.Count p
    /\ map Prediction.StationID predictions
       = map RawPrediction.StationID (PredictionResponse.Predictions p)
    /\ (fst run = Returned None
        <-> fst (InsertPredictions db predictions (snd (roundTrip w))) = None).
Proof.
  intros Hrt Hdec Hval. cbv zeta. rewrite run_unfold.
  assert (Hg : GetPredictions json_Decode (fst (roundTrip w)) = (Some p, None)).
  { apply (proj1 (proj2 (GetPredictions_batch_xor_error_full json_Decode
                            (fst (roundTrip w)))) p).
    exists body. auto. }
  rewrite Hg. cbv zeta.
  rewrite ConvertProps.convertPredictions_records. cbn [fst snd].
  set (predictions :=
         records time_Parse (readings c) (reads c)
           (PredictionResponse.Predictions p)).
  exists predictions.
  assert (Hcount : PredictionResponse.Count p
                   = Z.of_nat (List.length (PredictionResponse.Predictions p))
                   /\ 0 < PredictionResponse.Count p).
  { revert Hval. unfold PredictionResponse.Validate, len.
    destruct (PredictionResponse.Predictions p) as [|x rest]; [discriminate|].
    assert (Hnz : (Z.of_nat (List.length (x :: rest)) =? 0) = false)
      by (apply Z.eqb_neq; simpl List.length; lia).
    rewrite Hnz.
    destruct (Z.eqb_spec (PredictionResponse.Count p)
                (Z.of_nat (List.length (x :: rest)))) as [Hc|Hc];
      [|discriminate].
    intros _. split; [exact Hc|]. rewrite Hc. simpl List.length. lia. }
  destruct Hcount as [Hc Hpos].
  assert (Hlen : Z.of_nat (List.length predictions) = PredictionResponse.Count p).
  { unfold predictions. rewrite ConvertProps.records_length. now rewrite Hc. }
  assert (Hids : map Prediction.StationID predictions
                 = map RawPrediction.StationID (PredictionResponse.Predictions p))
    by apply records_station_ids.
  destruct (InsertPredictions db predictions (snd (roundTrip w)))
    as [[e|] w2]; cbn [fst snd prediction_calls];
    (split; [reflexivity|]); (split; [exact Hlen|]); (split; [exact Hpos|]);
    (split; [exact Hids|]); split; try discriminate; reflexivity.
Qed.

(** The response of the test "success": one prediction, count 1. *)
Lemma RunInference_persists_valid_batch_witness :
  exists predictions,
    prediction_calls
      (snd (snd (RunInferenceWithResults parse_test_time unit
                   (service (fun _ => inl valid_response)
                      (fun w => (HTTPResponse 200 "{}", w))
                      (Mock.MockDatabase None None None ([], None)))
                   (tt, test_clock, []))))
    = [predictions]
    /\ Z.of_nat (List.length predictions)
       = PredictionResponse.Count valid_response
    /\ 0 < PredictionResponse.Count valid_response
    /\ map Prediction.StationID predictions
       = map RawPrediction.StationID
           (PredictionResponse.Predictions valid_response)
    /\ (fst (RunInferenceWithResults parse_test_time unit
               (service (fun _ => inl valid_response)
                  (fun w => (HTTPResponse 200 "{}", w))
                  (Mock.MockDatabase None None None ([], None)))
               (tt, test_clock, []))
        = Returned None
        <-> fst (InsertPredictions
                   (Mock.MockDatabase None None None ([], None)) predictions
                   (snd ((fun w : unit => (HTTPResponse 200 "{}", w)) tt)))
            = None).
Proof.
  exact (RunInference_persists_valid_batch (fun _ => inl valid_response)
           parse_test_time (fun w => (HTTPResponse 200 "{}", w))
           (Mock.MockDatabase None None None ([], None)) tt test_clock "{}"
           valid_response eq_refl eq_refl eq_refl).
Defined.

End GatewayProps.

(** ** http_handlers.go: the station endpoints and the triggers *)

Module ApiProps.
Import Api ExtraSpec.

Lemma find_append {A : Type} (f : A -> bool) (l1 l2 : list A) :
  find f (l1 ++ l2)
  = match find f l1 with
    | Some x => Some x
    | None => find f l2
    end.
Proof.
  induction l1 as [|x l1 IH]; simpl; [reflexivity|].
  destruct (f x); [reflexivity | exact IH].
Qed.

Lemma fill_map_get (predictions : list Prediction.t) :
  forall (m : PredictionsMap) (k : string),
    map_get (fill_map m predictions) k
    = match find (fun p => String.eqb k (Prediction.StationID p))
              (rev predictions) with
      | Some p => Some p
      | None => map_get m k
      end.
Proof.
  unfold fill_map.
  induction predictions as [|p rest IH]; intros m k; simpl; [reflexivity|].
  rewrite IH. rewrite find_append.
  destruct (find (fun p0 => String.eqb k (Prediction.StationID p0)) (rev rest));
    [reflexivity|].
  simpl. unfold map_set. simpl.
  destruct (String.eqb k (Prediction.StationID p)); reflexivity.
Qed.

(** [GetStationsJSON] answers 500 exactly when the stations query fails,
    503 exactly when the stations query succeeds, the mode is "predicted"
    and the predictions query fails or returns nothing, and 200 otherwise,
    with the stations the query returned; it queries the predictions only
    when the stations query succeeded and the mode is "predicted", and a
    request without a mode is served as "current". *)
Theorem GetStationsJSON_status {W : Type} (h : HTTPHandlers W)
  (query_mode : option string) (w : W) :
  let stations := fst (fst (GetStationsWithAvailability h w)) in
  let serr := snd (fst (GetStationsWithAvailability h w)) in
  let w1 := snd (GetStationsWithAvailability h w) in
  let predictions := fst (fst (GetLatestPredictions (database h) w1)) in
  let perr := snd (fst (GetLatestPredictions (database h) w1)) in
  let predicted := DefaultQuery query_mode "current" = "predicted" in
  let run := GetStationsJSON h query_mode (w, []) in
  (Code (fst run) = 500 <-> serr <> None)
  /\ (Code (fst run) = 503
      <-> serr = None /\ predicted /\ (perr <> None \/ predictions = []))
  /\ (Code (fst run) = 200
      <-> serr = None /\ ~ (predicted /\ (perr <> None \/ predictions = [])))
  /\ (Code (fst run) = 200 ->
      field "stations" (Obj (fst run)) = Some (VStations stations))
  /\ (In QueryPredictions (snd (snd run)) <-> serr = None /\ predicted)
  /\ (query_mode = None -> ~ predicted).
Proof.
  cbv zeta.
  assert (Hnone : query_mode = None ->
                  DefaultQuery query_mode "current" <> "predicted")
    by (intros ->; cbn; discriminate).
  unfold GetStationsJSON.
  destruct (GetStationsWithAvailability h w) as [[stations [se|]] w1].
  { cbn. unfold StatusInternalServerError.
    intuition (try discriminate; try congruence). }
  cbn [fst snd].
  destruct (String.eqb_spec (DefaultQuery query_mode "current") "predicted")
    as [Hm|Hm].
  2:{ cbn. unfold StatusOK. intuition (try discriminate; try congruence). }
  destruct (GetLatestPredictions (database h) w1)
    as [[predictions [pe|]] w2]; cbn [fst snd].
  { cbn. unfold StatusServiceUnavailable.
    intuition (try discriminate; try congruence). }
  destruct predictions as [|p rest].
  { cbn. unfold StatusServiceUnavailable.
    intuition (try discriminate; try congruence). }
  rewrite len_cons_nonzero. cbn. unfold StatusOK.
  intuition (try discriminate; try congruence).
Qed.

(** [GetStationsHTML] answers 500 exactly when the stations query fails and
    otherwise renders "stations.html" with status 200, also when the
    predictions query fails or returns nothing; the [predictionsMap] it
    renders gives, for a station ID, the last prediction of the query's
    result with that ID when the mode is "predicted" and the query
    succeeded, and nothing otherwise. *)
Theorem GetStationsHTML_renders {W : Type} (h : HTTPHandlers W)
  (query_mode : option string) (w : W) :
  let stations := fst (fst (GetStationsWithAvailability h w)) in
  let serr := snd (fst (GetStationsWithAvailability h w)) in
  let w1 := snd (GetStationsWithAvailability h w) in
  let predictions := fst (fst (GetLatestPredictions (database h) w1)) in
  let perr := snd (fst (GetLatestPredictions (database h) w1)) in
  let mode := DefaultQuery query_mode "current" in
  let run := GetStationsHTML h query_mode (w, []) in
  (Code (fst run) = 500 <-> serr <> None)
  /\ (serr = None ->
      exists m,
        fst run
        = HTML 200 "stations.html"
            [("stations", VStations stations);
             ("predictionsMap", VPredictionsMap m); ("mode", VString mode)]
        /\ forall k,
            map_get m k
            = if String.eqb mode "predicted" then
                match perr with
                | Some _ => None
                | None =>
                  find (fun p => String.eqb k (Prediction.StationID p))
                    (rev predictions)
                end
              else None).
Proof.
  cbv zeta. unfold GetStationsHTML.
  destruct (GetStationsWithAvailability h w) as [[stations [se|]] w1].
  { cbn. split; [split; [discriminate | reflexivity] | discriminate]. }
  cbn [fst snd].
  destruct (String.eqb (DefaultQuery query_mode "current") "predicted").
  2:{ cbn. split; [split; [discriminate | intros H; now contradiction H]|].
      intros _. eexists. split; [reflexivity | reflexivity]. }
  destruct (GetLatestPredictions (database h) w1)
    as [[predictions [pe|]] w2]; cbn [fst snd].
  { cbn. split; [split; [discriminate | intros H; now contradiction H]|].
    intros _. eexists. split; [reflexivity | reflexivity]. }
  destruct predictions as [|p rest].
  { cbn. split; [split; [discriminate | intros H; now contradiction H]|].
    intros _. eexists. split; [reflexivity | reflexivity]. }
  assert (Hpos : (0 <? len (p :: rest)) = true)
    by (apply Z.ltb_lt; unfold len; simpl List.length; lia).
  rewrite Hpos. cbn [fst Code].
  split; [split; [discriminate | intros H; now contradiction H]|].
  intros _. eexists. split; [reflexivity|].
  intros k. rewrite fill_map_get.
  destruct (find _ (rev (p :: rest))); reflexivity.
Qed.

(** [POST /api/refresh] over the real [StationService]: the handler answers
    200 exactly when the fetch and both writes return [nil], and otherwise
    500 with the same body whichever step failed; it calls the service
    once. *)
Theorem RefreshStationData_handler_status {W : Type}
  (s : StationSvc.StationService W)
  (h : HTTPHandlers (W * list Call)) (w : W) :
  stationService h = StationSvc.RefreshStationData s ->
  let run := RefreshStationData h ((w, []), []) in
  (Code (fst run) = 200
   <-> exists stations statuses w1 w2 w3,
       FetchStationData (StationSvc.divvyClient s) w
       = ((stations, statuses, None), w1)
       /\ UpsertStations (StationSvc.database s)
            (map StationSvc.convertToStation stations) w1 = (None, w2)
       /\ InsertAvailabilities (StationSvc.database s)
            (map StationSvc.convertToAvailability statuses) w2 = (None, w3))
  /\ (Code (fst run) <> 200 ->
      fst run = JSON 500 [("error", VString "Failed to refresh station data")])
  /\ snd (snd run) = [ServiceRefresh].
Proof.
  intros Hsvc. cbv zeta. unfold RefreshStationData. rewrite Hsvc.
  pose proof (RecordProps.refresh_nil_iff s w) as [Hiff _].
  destruct (StationSvc.RefreshStationData s (w, [])) as [[e|] st1];
    cbn [fst snd Code] in *.
  - split; [split; [discriminate|]|split; [reflexivity | reflexivity]].
    intros H. apply Hiff in H. discriminate.
  - split; [split; [intros _; now apply Hiff | reflexivity]|].
    split; [intros H; now contradiction H | reflexivity].
Qed.

Lemma RefreshStationData_handler_status_witness :
  Code (fst (RefreshStationData
               (mkHandlers (unit * list Call)
                  (fun w => (([], None), w)) idle_database
                  (StationSvc.RefreshStationData
                     (StationSvc.NewStationService unit
                        (Mock.MockDatabase None None None ([], None))
                        (Mock.MockDivvyClient [Mock.station123]
                           [Mock.status123] None)))
                  (fun w => (None, w)))
               ((tt, []), []))) = 200.
Proof.
  apply (proj1 (RefreshStationData_handler_status
                  (StationSvc.NewStationService unit
                     (Mock.MockDatabase None None None ([], None))
                     (Mock.MockDivvyClient [Mock.station123] [Mock.status123]
                        None))
                  (mkHandlers (unit * list Call)
                     (fun w => (([], None), w)) idle_database
                     (StationSvc.RefreshStationData
                        (StationSvc.NewStationService unit
                           (Mock.MockDatabase None None None ([], None))
                           (Mock.MockDivvyClient [Mock.station123]
                              [Mock.status123] None)))
                     (fun w => (None, w)))
                  tt eq_refl)).
  exists [Mock.station123], [Mock.status123], tt, tt, tt.
  repeat split.
Defined.

End ApiProps.

(** ** Config *)

Module ConfigProps.
Import ConfigLoad.



End ConfigProps.

(** ** divvy_client.go *)

Module DivvyClientProps.
Import DivvyClient.

Lemma fetchJSON_nil_iff {T : Type} (decode : string -> T + error)
  (r : HTTPResult) (target : T) :
  forall v,
    fetchJSON decode r target = (v, None)
    <-> exists status body,
        r = HTTPResponse 200 status body /\ decode body = inl v.
Proof.
  intros v. unfold fetchJSON, StatusOK.
  destruct r as [e|e|code status body].
  - split; [discriminate | intros (? & ? & H & _); discriminate].
  - split; [discriminate | intros (? & ? & H & _); discriminate].
  - destruct (Z.eqb_spec code 200) as [->|Hne]; cbn [negb].
    2:{ split; [discriminate|]. intros (? & ? & H & _).
        inversion H. contradiction. }
    destruct (decode body) as [x|e] eqn:Hd.
    + split.
      * intros H. inversion H; subst. eauto.
      * intros (s & b & H & Hd'). inversion H; subst.
        rewrite Hd in Hd'. now inversion Hd'.
    + split; [discriminate|]. intros (s & b & H & Hd').
      inversion H; subst. congruence.
Qed.

(** [FetchStationData] returns no error exactly when both requests are
    answered with status 200 and a body that decodes, and it then returns
    the stations of the two decoded documents; in every other case it
    returns no stations and no statuses, and an error that wraps the error
    of one of the two requests. *)
Theorem FetchStationData_all_or_nothing
  (decode_info : string -> DivvyStationInfoResponse + error)
  (decode_status : string -> DivvyStationStatusResponse + error)
  (info status : HTTPResult) (first_is_info : bool) :
  let r := FetchStationData decode_info decode_status info status
             first_is_info in
  (forall stations statuses,
      r = (stations, statuses, None)
      <-> exists s1 b1 v1 s2 b2 v2,
          info = HTTPResponse 200 s1 b1 /\ decode_info b1 = inl v1
          /\ status = HTTPResponse 200 s2 b2 /\ decode_status b2 = inl v2
          /\ stations = InfoStations v1 /\ statuses = StatusStations v2)
  /\ (forall e,
         snd r = Some e ->
         fst r = ([], [])
         /\ exists inner,
             e = fmt_Errorf_w "failed to fetch station data: %w" [] inner
             /\ (snd (fetchJSON decode_info info (mkInfo [])) = Some inner
                 \/ snd (fetchJSON decode_status status (mkStatus []))
                    = Some inner)).
Proof.
  cbv zeta. unfold FetchStationData.
  pose proof (fetchJSON_nil_iff decode_info info (mkInfo [])) as Hi.
  pose proof (fetchJSON_nil_iff decode_status status (mkStatus [])) as Hs.
  destruct (fetchJSON decode_info info (mkInfo [])) as [ti [e1|]];
    destruct (fetchJSON decode_status status (mkStatus [])) as [ts [e2|]];
    cbn [Wait fst snd].
  - split.
    + intros stations statuses. split.
      * destruct first_is_info; discriminate.
      * intros (s1 & b1 & v1 & ? & ? & ? & H1 & H2 & _).
        assert (Hx : (ti, Some e1) = (v1, None)) by (apply Hi; eauto).
        discriminate.
    + intros e He. destruct first_is_info; cbn in *; inversion He; subst;
        (split; [reflexivity|]); eexists; split; try reflexivity; auto.
  - split.
    + intros stations statuses. split; [discriminate|].
      intros (s1 & b1 & v1 & ? & ? & ? & H1 & H2 & _).
      assert (Hx : (ti, Some e1) = (v1, None)) by (apply Hi; eauto).
      discriminate.
    + intros e He. cbn in *. inversion He; subst.
      split; [reflexivity|]. eexists; split; try reflexivity; auto.
  - split.
    + intros stations statuses. split; [discriminate|].
      intros (? & ? & ? & s2 & b2 & v2 & _ & _ & H1 & H2 & _).
      assert (Hx : (ts, Some e2) = (v2, None)) by (apply Hs; eauto).
      discriminate.
    + intros e He. cbn in *. inversion He; subst.
      split; [reflexivity|]. eexists; split; try reflexivity; auto.
  - split.
    + intros stations statuses. split.
      * intros H. inversion H; subst.
        destruct (proj1 (Hi ti) eq_refl) as (s1 & b1 & H1 & H2).
        destruct (proj1 (Hs ts) eq_refl) as (s2 & b2 & H3 & H4).
        exists s1, b1, ti, s2, b2, ts. auto 10.
      * intros (s1 & b1 & v1 & s2 & b2 & v2 & H1 & H2 & H3 & H4 & -> & ->).
        assert (Hx : (ti, @None error) = (v1, None)) by (apply Hi; eauto).
        assert (Hy : (ts, @None error) = (v2, None)) by (apply Hs; eauto).
        inversion Hx; inversion Hy; subst. reflexivity.
    + intros e He. discriminate.
Qed.

End DivvyClientProps.

(** ** server.go: more on the two loops *)

Module LoopProps.
Import Sched SchedSpec ExtraSpec.






(** When every call returns, the open wait is the wait of [Sched]. *)
Lemma open_wait_agrees (env : Env) (ctx : Context)
  (maxWait checkInterval : Duration) (start : Time) :
  forall fuel now k,
    match OpenWait.wait_rounds (fun j => Some (inference env j)) env ctx fuel
            maxWait checkInterval start now k,
          wait_rounds env ctx fuel maxWait checkInterval start now k with
    | OpenWait.Returned err t calls, (Some res, t', calls', _) =>
      err = res /\ t = t' /\ calls = calls'
    | OpenWait.Looping, (None, _, _, _) => True
    | _, _ => False
    end.
Proof.
  induction fuel as [|fuel IH]; intros now k; simpl; [exact I|].
  destruct (maxWait <? Sub now start); [auto|].
  destruct (inference env k) as [d [e|]]; [|auto].
  destruct (select env ctx (now + Z.of_N d)
              (After (now + Z.of_N d) checkInterval)) as [t|t|]; auto.
  specialize (IH t (S k)).
  destruct (wait_rounds env ctx fuel maxWait checkInterval start t (S k))
    as [[[res tend] kend] evs].
  exact IH.
Qed.



(** That wait hangs in the fourth call, begun 33 seconds after the start,
    and is still there when the maximum wait has long passed. *)
Lemma initial_wait_hangs_example :
  OpenWait.waitAndGenerateInitialPredictions Config.default refuses_then_hangs
    calm Background 40 noon
  = OpenWait.Hung 3 (noon + 33 * Second).
Proof. reflexivity. Qed.

(** A live ticker whose next tick is not yet past, read by a loop whose
    fetches each take less than the period, ticks at every period. *)
Lemma collection_ticks_times (env : Env) (interval : Duration) :
  0 < interval ->
  (forall k, Z.of_N (fst (refresh env k)) < interval) ->
  forall fuel ticker now k,
    period ticker = interval -> stop_at ticker = None -> now <= next ticker ->
    refresh_times (collection_ticks env Background fuel ticker now k)
    = map (fun j => next ticker + Z.of_nat j * interval) (seq 0 fuel).
Proof.
  intros Hpos Hfast.
  induction fuel as [|fuel IH]; intros ticker now k Hp Hs Hle; [reflexivity|].
  cbn [collection_ticks]. rewrite SchedProps.select_Background.
  unfold tick_ready. rewrite Hs.
  replace (Z.max now (next ticker)) with (next ticker) by lia.
  specialize (Hfast k).
  destruct (refresh env k) as [d r]. cbn [fst] in Hfast.
  cbn [refresh_times seq map]. f_equal; [lia|].
  rewrite IH.
  - rewrite <- seq_shift, map_map. apply map_ext. intros j.
    unfold received. cbn [next]. rewrite Hp, Z.sub_diag, Z.div_0_l by lia.
    lia.
  - unfold received. cbn [period]. exact Hp.
  - unfold received. cbn [stop_at]. exact Hs.
  - unfold received. cbn [next]. rewrite Hp, Z.sub_diag, Z.div_0_l by lia.
    lia.
Qed.

(** After the first fetch at the boundary the collection loop does not stay
    on the boundaries: its ticker is created when the first fetch has
    returned, so when every fetch takes less than the interval, the
    [j]-th later fetch starts [j] intervals after the END of the first
    one, that is [d0] after a boundary, where [d0] is how long the first
    fetch took. *)
Theorem collection_ticks_follow_first_fetch (cfg : Config.TimingConfig)
  (env : Env) (now : Time) (fuel : nat) :
  0 < Config.DataCollectionIntervalMin cfg <= maxIntervalMin ->
  (forall k,
      Z.of_N (fst (refresh env k))
      < Config.DataCollectionIntervalMin cfg * Minute) ->
  let interval := Config.DataCollectionIntervalMin cfg * Minute in
  let boundary := now - now mod interval + interval in
  let d0 := Z.of_N (fst (refresh env 0)) in
  refresh_times (startDataCollection cfg env Background now fuel)
  = boundary
    :: map (fun j => boundary + d0 + Z.of_nat j * interval) (seq 1 fuel).
Proof.
  intros Hmin Hfast interval boundary d0.
  assert (Hpos : 0 < interval < 2 ^ 63).
  { unfold interval, maxIntervalMin, Minute, Second in *. lia. }
  pose proof (Z.mod_pos_bound now interval (proj1 Hpos)) as Hmod.
  unfold startDataCollection.
  rewrite (SchedProps.scale_Minute_exact _ Hmin). fold interval.
  unfold Truncate, Add, Sub, After, minDuration, maxDuration.
  destruct (Z.leb_spec interval 0) as [Hle|_]; [lia|].
  destruct (Z.ltb_spec (now - now mod interval + interval - now) (- 2 ^ 63))
    as [Hlt|_]; [lia|].
  destruct (Z.ltb_spec (2 ^ 63 - 1)
              (now - now mod interval + interval - now)) as [Hlt|_]; [lia|].
  rewrite SchedProps.select_Background.
  replace (Z.max now (now + (now - now mod interval + interval - now)))
    with boundary by (unfold boundary; lia).
  unfold d0. destruct (refresh env 0) as [d r]. cbn [fst].
  unfold NewTicker.
  destruct (Z.leb_spec interval 0) as [Hle|_]; [lia|].
  cbn [refresh_times]. f_equal.
  rewrite (collection_ticks_times env interval (proj1 Hpos) Hfast);
    try reflexivity; cbn [next]; [|lia].
  rewrite <- seq_shift, map_map. apply map_ext. intros j. lia.
Qed.

(** Every 15 minutes, fetches of one second, started at noon and 7 seconds:
    12:15:00, then 12:30:01, 12:45:01, 13:00:01. *)
Lemma collection_ticks_follow_first_fetch_witness :
  refresh_times
    (startDataCollection Config.default calm Background (noon + 7 * Second) 3)
  = (noon + 15 * Minute)
    :: map (fun j => noon + 15 * Minute + Second + Z.of_nat j * (15 * Minute))
         (seq 1 3).
Proof.
  apply (collection_ticks_follow_first_fetch Config.default calm
           (noon + 7 * Second) 3).
  - unfold maxIntervalMin. simpl. lia.
  - intros k. vm_compute. reflexivity.
Defined.

(** Given a context that is cancelled before the first boundary, the
    collection loop makes no fetch at all and returns at the instant of the
    cancellation (at its start, when the context was cancelled already). *)
Theorem collection_cancelled_before_first_fetch (cfg : Config.TimingConfig)
  (env : Env) (now c : Time) (fuel : nat) :
  0 < Config.DataCollectionIntervalMin cfg <= maxIntervalMin ->
  c < now - now mod (Config.DataCollectionIntervalMin cfg * Minute)
      + Config.DataCollectionIntervalMin cfg * Minute ->
  refresh_times
    (startDataCollection cfg env (WithCancel (Some c)) now fuel) = []
  /\ returns (startDataCollection cfg env (WithCancel (Some c)) now fuel)
     = [Z.max now c].
Proof.
  intros Hmin Hc.
  set (interval := Config.DataCollectionIntervalMin cfg * Minute) in *.
  assert (Hpos : 0 < interval < 2 ^ 63).
  { unfold interval, maxIntervalMin, Minute, Second in *. lia. }
  pose proof (Z.mod_pos_bound now interval (proj1 Hpos)) as Hmod.
  unfold startDataCollection.
  rewrite (SchedProps.scale_Minute_exact _ Hmin). fold interval.
  unfold Truncate, Add, Sub, After, minDuration, maxDuration.
  destruct (Z.leb_spec interval 0) as [Hle|_]; [lia|].
  destruct (Z.ltb_spec (now - now mod interval + interval - now) (- 2 ^ 63))
    as [Hlt|_]; [lia|].
  destruct (Z.ltb_spec (2 ^ 63 - 1)
              (now - now mod interval + interval - now)) as [Hlt|_]; [lia|].
  unfold select. cbn [Done].
  destruct (Z.ltb_spec (Z.max now c)
              (Z.max now (now + (now - now mod interval + interval - now))))
    as [_|Hge]; [|lia].
  split; reflexivity.
Qed.

(** Started at noon and 7 seconds with a context cancelled at 12:05. *)
Lemma collection_cancelled_before_first_fetch_witness :
  refresh_times
    (startDataCollection Config.default calm
       (WithCancel (Some (noon + 5 * Minute))) (noon + 7 * Second) 3) = []
  /\ returns
       (startDataCollection Config.default calm
          (WithCancel (Some (noon + 5 * Minute))) (noon + 7 * Second) 3)
     = [Z.max (noon + 7 * Second) (noon + 5 * Minute)].
Proof.
  apply (collection_cancelled_before_first_fetch Config.default calm
           (noon + 7 * Second) (noon + 5 * Minute) 3).
  - unfold maxIntervalMin. simpl. lia.
  - vm_compute. reflexivity.
Defined.

Lemma scale_Hour_nonpositive (n : Z) :
  - maxIntervalHours <= n <= 0 -> scale n Hour <= 0.
Proof.
  unfold scale, wrap64, maxIntervalHours, Hour, Minute, Second. intros H.
  replace ((n * (60 * (60 * 1000000000)) + 2 ^ 63) mod 2 ^ 64)
    with (n * (60 * (60 * 1000000000)) + 2 ^ 63)
    by (symmetry; apply Z.mod_small; lia).
  lia.
Qed.

Lemma scale_Minute_nonpositive (n : Z) :
  - maxIntervalMin <= n <= 0 -> scale n Minute = n * Minute.
Proof.
  unfold scale, wrap64, maxIntervalMin, Minute, Second. intros H.
  rewrite Z.mod_small; lia.
Qed.

(** A prediction interval of zero or fewer hours (which [Config.Validate]
    does not refuse) makes [StartPredictionService] panic in
    [time.NewTicker] before it launches its goroutine: no inference is ever
    attempted. *)
Theorem StartPredictionService_panics_without_interval
  (cfg : Config.TimingConfig) (env : Env) (ctx : Context) (now : Time)
  (fuel : nat) :
  - maxIntervalHours <= Config.PredictionIntervalHours cfg <= 0 ->
  StartPredictionService cfg env ctx now fuel
  = [Panic now "non-positive interval for NewTicker"].
Proof.
  intros H. unfold StartPredictionService, NewTicker.
  pose proof (scale_Hour_nonpositive _ H) as Hle.
  destruct (Z.leb_spec (scale (Config.PredictionIntervalHours cfg) Hour) 0);
    [reflexivity | lia].
Qed.

Lemma StartPredictionService_panics_without_interval_witness :
  StartPredictionService (Config.mkTiming 15 0 10 5 10) calm Background noon 5
  = [Panic noon "non-positive interval for NewTicker"].
Proof.
  apply (StartPredictionService_panics_without_interval
           (Config.mkTiming 15 0 10 5 10) calm Background noon 5).
  unfold maxIntervalHours. simpl. lia.
Defined.

(** With a collection interval of zero or fewer minutes (a configuration
    that was not validated) the collection loop does not wait: it makes its
    first fetch at the very instant it starts, and then panics in
    [time.NewTicker]. *)
Theorem collection_without_interval_fetches_then_panics
  (cfg : Config.TimingConfig) (env : Env) (now : Time) (fuel : nat) :
  - maxIntervalMin <= Config.DataCollectionIntervalMin cfg <= 0 ->
  refresh_times (startDataCollection cfg env Background now fuel) = [now]
  /\ last (startDataCollection cfg env Background now fuel) (Return 0)
     = Panic (now + Z.of_N (fst (refresh env 0)))
         "non-positive interval for NewTicker".
Proof.
  intros H. unfold startDataCollection.
  rewrite (scale_Minute_nonpositive _ H).
  set (interval := Config.DataCollectionIntervalMin cfg * Minute).
  assert (Hle : - 2 ^ 63 < interval <= 0).
  { unfold interval, maxIntervalMin, Minute, Second in *. lia. }
  unfold Truncate, Add, Sub, After, NewTicker, minDuration, maxDuration.
  destruct (Z.leb_spec interval 0) as [_|Hgt]; [|lia].
  destruct (Z.ltb_spec (now + interval - now) (- 2 ^ 63)) as [Hlt|_]; [lia|].
  destruct (Z.ltb_spec (2 ^ 63 - 1) (now + interval - now)) as [Hlt|_];
    [lia|].
  rewrite SchedProps.select_Background.
  replace (Z.max now (now + (now + interval - now))) with now by lia.
  destruct (refresh env 0) as [d r]. cbn [fst].
  split; reflexivity.
Qed.

Lemma collection_without_interval_fetches_then_panics_witness :
  refresh_times
    (startDataCollection (Config.mkTiming 0 2 10 5 10) calm Background noon 5)
  = [noon]
  /\ last
       (startDataCollection (Config.mkTiming 0 2 10 5 10) calm Background
          noon 5) (Return 0)
     = Panic (noon + Z.of_N (fst (refresh calm 0)))
         "non-positive interval for NewTicker".
Proof.
  apply (collection_without_interval_fetches_then_panics
           (Config.mkTiming 0 2 10 5 10) calm noon 5).
  unfold maxIntervalMin. simpl. lia.
Defined.

End LoopProps.
